(** * EstimateAI: localization and fallback-estimation pipeline

    A shallow embedding of the deterministic core of the EstimateAI web
    application:

    - [utils/localization.ts]: the country registry, the exchange-rate table,
      [detectUserCountry], [convertCurrency] and [convertUnits];
    - [services/documentProcessor.ts]: [processFile] and [analyzeWithAI];
    - [services/aiProcessing.ts]: [processProjectFiles] and
      [generateFallbackEstimation];
    - the rest of the localization service ([setCountry],
      [getCurrentCountry], [getCurrencySymbol], [getRegionalCostFactors]) and
      its caller [convertUnitsForDisplay] of [components/EstimationResults.tsx];
    - [services/fileUpload.ts]: [uploadProjectFiles] and [deleteProjectFile];
    - [hooks/useProjects.ts]: [getProjectEstimation] and [deleteProject];
    - [components/ProjectsList.tsx]: [handleViewProject] and
      [generateFallbackResults].

    Modelling conventions.

    - A JavaScript [number] is an exact rational ([Q]).  [Math.floor] is
      [Qfloor]; [Math.round] rounds half-way cases upwards, i.e. it is
      [Qfloor (x + 1/2)].  Binary64 rounding, overflow, NaN and infinities
      are outside the model, so equalities between computed numbers are
      statements about exact arithmetic.
    - A JavaScript object used as a dictionary is a [gmap] over its own
      properties; [obj[k] || d] is a lookup followed by a truthiness test.
    - [T | undefined] is [option T].
    - [Math.random()] and every other external effect (storage download,
      file reading, the AI provider call, the result of the database insert,
      the clock) is read from an explicit [World] record; the Supabase tables
      are an explicit [Database] value threaded through a state-and-exception
      monad.
    - The Supabase query builders resolve to a [{ data, error }] pair instead
      of rejecting; the pipeline reads [error] only after the insert, so the
      insert is the one table operation whose failure is modelled, and every
      other one takes effect. *)

From Stdlib Require Import Ascii String QArith Qround Qabs Lqa.
From stdpp Require Import gmap strings list fin_maps pretty.

#[local] Open Scope Q_scope.
#[local] Open Scope string_scope.

(** ** JavaScript numbers *)

Module JsNumber.

(** [ToBoolean] on a number: only zero is falsy (NaN is not modelled). *)
Definition truthy (x : Q) : bool := negb (Qeq_bool x 0).

(** [x || d] for an optional number, e.g. [TABLE[key] || 1]. *)
Definition or_default (x : option Q) (d : Q) : Q :=
  match x with
  | Some v => if truthy v then v else d
  | None => d
  end.

Definition Math_floor (x : Q) : Q := inject_Z (Qfloor x).

(** [Math.round]: the nearest integer, ties towards +infinity. *)
Definition Math_round (x : Q) : Q := inject_Z (Qfloor (x + (1 # 2))).

End JsNumber.

(** ** [utils/localization.ts] *)

Module Localization.
Import JsNumber.

Inductive MeasurementSystem := metric | imperial.

Record ConstructionUnits := mkUnits {
  area : string;
  volume : string;
  length_ : string;  (* [length] in the source *)
  weight : string
}.

Record CountryConfig := mkCountry {
  code : string;
  name : string;
  currency : string;
  currencySymbol : string;
  locale : string;
  dateFormat : string;
  numberFormat : string;
  timezone : string;
  measurementSystem : MeasurementSystem;
  constructionUnits : ConstructionUnits
}.

Definition COUNTRIES : list CountryConfig := [
  mkCountry "US" "United States" "USD" "$" "en-US" "MM/DD/YYYY" "1,234.56" "America/New_York" imperial
    (mkUnits "sq ft" "cu ft" "ft" "lbs");
  mkCountry "CA" "Canada" "CAD" "C$" "en-CA" "DD/MM/YYYY" "1,234.56" "America/Toronto" metric
    (mkUnits "m²" "m³" "m" "kg");
  mkCountry "MX" "Mexico" "MXN" "$" "en-MX" "DD/MM/YYYY" "1,234.56" "America/Mexico_City" metric
    (mkUnits "m²" "m³" "m" "kg");
  mkCountry "GB" "United Kingdom" "GBP" "£" "en-GB" "DD/MM/YYYY" "1,234.56" "Europe/London" metric
    (mkUnits "m²" "m³" "m" "kg");
  mkCountry "DE" "Germany" "EUR" "€" "en-DE" "DD.MM.YYYY" "1.234,56" "Europe/Berlin" metric
    (mkUnits "m²" "m³" "m" "kg");
  mkCountry "FR" "France" "EUR" "€" "en-FR" "DD/MM/YYYY" "1 234,56" "Europe/Paris" metric
    (mkUnits "m²" "m³" "m" "kg");
  mkCountry "ES" "Spain" "EUR" "€" "en-ES" "DD/MM/YYYY" "1.234,56" "Europe/Madrid" metric
    (mkUnits "m²" "m³" "m" "kg");
  mkCountry "IT" "Italy" "EUR" "€" "en-IT" "DD/MM/YYYY" "1.234,56" "Europe/Rome" metric
    (mkUnits "m²" "m³" "m" "kg");
  mkCountry "NL" "Netherlands" "EUR" "€" "en-NL" "DD-MM-YYYY" "1.234,56" "Europe/Amsterdam" metric
    (mkUnits "m²" "m³" "m" "kg");
  mkCountry "CH" "Switzerland" "CHF" "CHF" "en-CH" "DD.MM.YYYY" "1'234.56" "Europe/Zurich" metric
    (mkUnits "m²" "m³" "m" "kg");
  mkCountry "SE" "Sweden" "SEK" "kr" "en-SE" "YYYY-MM-DD" "1 234,56" "Europe/Stockholm" metric
    (mkUnits "m²" "m³" "m" "kg");
  mkCountry "NO" "Norway" "NOK" "kr" "en-NO" "DD.MM.YYYY" "1 234,56" "Europe/Oslo" metric
    (mkUnits "m²" "m³" "m" "kg");
  mkCountry "JP" "Japan" "JPY" "¥" "en-JP" "YYYY/MM/DD" "1,234" "Asia/Tokyo" metric
    (mkUnits "m²" "m³" "m" "kg");
  mkCountry "CN" "China" "CNY" "¥" "en-CN" "YYYY/MM/DD" "1,234.56" "Asia/Shanghai" metric
    (mkUnits "m²" "m³" "m" "kg");
  mkCountry "IN" "India" "INR" "₹" "en-IN" "DD/MM/YYYY" "1,23,456.78" "Asia/Kolkata" metric
    (mkUnits "sq ft" "cu ft" "ft" "kg");
  mkCountry "AU" "Australia" "AUD" "A$" "en-AU" "DD/MM/YYYY" "1,234.56" "Australia/Sydney" metric
    (mkUnits "m²" "m³" "m" "kg");
  mkCountry "NZ" "New Zealand" "NZD" "NZ$" "en-NZ" "DD/MM/YYYY" "1,234.56" "Pacific/Auckland" metric
    (mkUnits "m²" "m³" "m" "kg");
  mkCountry "SG" "Singapore" "SGD" "S$" "en-SG" "DD/MM/YYYY" "1,234.56" "Asia/Singapore" metric
    (mkUnits "m²" "m³" "m" "kg");
  mkCountry "KR" "South Korea" "KRW" "₩" "en-KR" "YYYY.MM.DD" "1,234" "Asia/Seoul" metric
    (mkUnits "m²" "m³" "m" "kg");
  mkCountry "AE" "United Arab Emirates" "AED" "د.إ" "en-AE" "DD/MM/YYYY" "1,234.56" "Asia/Dubai" metric
    (mkUnits "m²" "m³" "m" "kg");
  mkCountry "SA" "Saudi Arabia" "SAR" "ر.س" "en-SA" "DD/MM/YYYY" "1,234.56" "Asia/Riyadh" metric
    (mkUnits "m²" "m³" "m" "kg");
  mkCountry "ZA" "South Africa" "ZAR" "R" "en-ZA" "YYYY/MM/DD" "1 234,56" "Africa/Johannesburg" metric
    (mkUnits "m²" "m³" "m" "kg");
  mkCountry "BR" "Brazil" "BRL" "R$" "en-BR" "DD/MM/YYYY" "1.234,56" "America/Sao_Paulo" metric
    (mkUnits "m²" "m³" "m" "kg");
  mkCountry "AR" "Argentina" "ARS" "$" "en-AR" "DD/MM/YYYY" "1.234,56" "America/Argentina/Buenos_Aires" metric
    (mkUnits "m²" "m³" "m" "kg");
  mkCountry "CL" "Chile" "CLP" "$" "en-CL" "DD-MM-YYYY" "1.234" "America/Santiago" metric
    (mkUnits "m²" "m³" "m" "kg")
].

(** Exchange rates relative to USD, in source order. *)
Definition EXCHANGE_RATES_entries : list (string * Q) := [
  ("USD", 1.00); ("EUR", 0.85); ("GBP", 0.73); ("JPY", 110.0);
  ("CAD", 1.25); ("AUD", 1.35); ("CHF", 0.92); ("CNY", 6.45);
  ("INR", 74.5); ("BRL", 5.2); ("MXN", 20.1); ("KRW", 1180.0);
  ("SGD", 1.35); ("NZD", 1.42); ("SEK", 8.6); ("NOK", 8.8);
  ("AED", 3.67); ("SAR", 3.75); ("ZAR", 14.8); ("ARS", 98.5);
  ("CLP", 800.0)
].

Definition EXCHANGE_RATES : gmap string Q :=
  list_to_map EXCHANGE_RATES_entries.

(** [userLocale.split('-')[0]]: the text before the first dash, the whole
    string when there is none. *)
Fixpoint split_dash_head (s : string) : string :=
  match s with
  | EmptyString => EmptyString
  | String c rest =>
      if Ascii.eqb c "-"%char then EmptyString
      else String c (split_dash_head rest)
  end.

(** [navigator.language || 'en-US']: the empty string is falsy. *)
Definition language_or_default (navigator_language : string) : string :=
  if String.eqb navigator_language "" then "en-US" else navigator_language.

(** [detectUserCountry].  [Array.prototype.find] is [List.find]; the two
    arguments stand for [navigator.language] and the resolved time zone.
    The result is kept optional, as the [find] calls are in the source
    (the final one carries a non-null assertion). *)
Definition detectUserCountry (navigator_language timeZone : string)
  : option CountryConfig :=
  let userLocale := language_or_default navigator_language in
  let country := List.find (fun c => String.eqb (locale c) userLocale) COUNTRIES in
  let country :=
    match country with
    | Some _ => country
    | None => List.find (fun c => String.eqb (timezone c) timeZone) COUNTRIES
    end in
  let country :=
    match country with
    | Some _ => country
    | None =>
        let langCode := split_dash_head userLocale in
        List.find (fun c => String.prefix langCode (locale c)) COUNTRIES
    end in
  match country with
  | Some _ => country
  | None => List.find (fun c => String.eqb (code c) "US") COUNTRIES
  end.

(** [convertCurrency]. *)
Definition convertCurrency (amount : Q) (fromCurrency toCurrency : string) : Q :=
  if String.eqb fromCurrency toCurrency then amount
  else
    let fromRate := or_default (EXCHANGE_RATES !! fromCurrency) 1 in
    let toRate := or_default (EXCHANGE_RATES !! toCurrency) 1 in
    let usdAmount := amount / fromRate in
    usdAmount * toRate.

(** The table local to [convertUnits]. *)
Definition conversions : gmap string (gmap string Q) :=
  list_to_map [
    ("m²", list_to_map [("sq ft", 10.764); ("sq m", 1)]);
    ("sq ft", list_to_map [("m²", 0.0929); ("sq ft", 1)]);
    ("m³", list_to_map [("cu ft", 35.314); ("cu m", 1)]);
    ("cu ft", list_to_map [("m³", 0.0283); ("cu ft", 1)]);
    ("m", list_to_map [("ft", 3.281); ("m", 1)]);
    ("ft", list_to_map [("m", 0.305); ("ft", 1)]);
    ("kg", list_to_map [("lbs", 2.205); ("kg", 1)]);
    ("lbs", list_to_map [("kg", 0.454); ("lbs", 1)])
  ].

(** [convertUnits]: [conversions[fromUnit]?.[toUnit]], then the
    truthiness test of the conditional expression. *)
Definition convertUnits (value : Q) (fromUnit toUnit : string) : Q :=
  if String.eqb fromUnit toUnit then value
  else
    let conversion := conversions !! fromUnit ≫= (.!! toUnit) in
    match conversion with
    | Some k => if truthy k then value * k else value
    | None => value
    end.

End Localization.

(** ** The Supabase tables and the effects of the pipeline *)

Module Supabase.

Module ProjectStatus.
(** [CHECK (status IN ('draft', 'processing', 'completed', 'review'))] *)
Inductive t := draft | processing | completed | review.
End ProjectStatus.

Module FileStatus.
(** [CHECK (processing_status IN ('pending', 'processing', 'completed', 'error'))] *)
Inductive t := pending | processing | completed | error.
End FileStatus.

(** A row of [projects], keyed by its [id] in the table. *)
Record ProjectRow := mkProject {
  project_name : string;
  project_type : string;
  status : ProjectStatus.t;
  total_cost : Q;
  accuracy : Q;
  processing_time : option string
}.

Record FileRow := mkFile {
  id : string;
  project_id : string;
  file_name : string;
  file_type : string;
  file_url : string;
  processing_status : FileStatus.t
}.

(** A row of [estimation_items]: the columns the pipeline writes. *)
Record ItemRow := mkItemRow {
  item_project_id : string;
  category : string;
  description : string;
  quantity : Q;
  unit_ : string;  (* [unit] in the source *)
  rate : Q;
  amount : Q
}.

Record Database := mkDatabase {
  projects : gmap string ProjectRow;
  project_files : list FileRow;
  estimation_items : list ItemRow
}.

(** How an awaited call completes: it resolves or it rejects. *)
Inductive Completion (A : Type) :=
| Normal (a : A)
| Throw (e : string).
Arguments Normal {A} a.
Arguments Throw {A} e.

(** Computations over the database that may throw.  Writes made before a
    throw stay in the database: nothing is rolled back. *)
Definition M (A : Type) : Type := Database -> Database * Completion A.

Definition ret {A} (a : A) : M A := fun db => (db, Normal a).

Definition bind {A B} (m : M A) (k : A -> M B) : M B :=
  fun db =>
    match m db with
    | (db', Normal a) => k a db'
    | (db', Throw e) => (db', Throw e)
    end.

Definition throw {A} (e : string) : M A := fun db => (db, Throw e).

(** [await] of a call into the outside world. *)
Definition await {A} (c : Completion A) : M A := fun db => (db, c).

(** [try { body } catch (error) { handler }] *)
Definition try_catch {A} (body : M A) (handler : string -> M A) : M A :=
  fun db =>
    match body db with
    | (db', Normal a) => (db', Normal a)
    | (db', Throw e) => handler e db'
    end.

(** [for (const x of xs) { ... }] with the loop-carried variables in [acc]. *)
Fixpoint for_of {A S} (xs : list A) (body : A -> S -> M S) (acc : S) : M S :=
  match xs with
  | [] => ret acc
  | x :: rest => bind (body x acc) (for_of rest body)
  end.

Module Notations.
Notation "'let!' x ':=' m 'in' k" := (bind m (fun x => k))
  (at level 10, x name, m at level 100, k at level 200).
Notation "'do!' m 'in' k" := (bind m (fun _ => k))
  (at level 10, m at level 100, k at level 200).
End Notations.

(** [from('projects').update(patch).eq('id', projectId)] *)
Definition update_project (projectId : string) (patch : ProjectRow -> ProjectRow) : M () :=
  fun db =>
    (mkDatabase (alter patch projectId (projects db))
                (project_files db) (estimation_items db),
     Normal ()).

(** [from('project_files').select('*').eq('project_id', projectId)] *)
Definition select_files (projectId : string) : M (list FileRow) :=
  fun db =>
    (db, Normal (List.filter (fun f => String.eqb (project_id f) projectId)
                             (project_files db))).

Definition set_processing_status (st : FileStatus.t) (f : FileRow) : FileRow :=
  mkFile (id f) (project_id f) (file_name f) (file_type f) (file_url f) st.

(** [from('project_files').update({ processing_status }).eq('id', fileId)] *)
Definition update_file_status (fileId : string) (st : FileStatus.t) : M () :=
  fun db =>
    (mkDatabase (projects db)
                (List.map (fun f => if String.eqb (id f) fileId
                                    then set_processing_status st f else f)
                          (project_files db))
                (estimation_items db),
     Normal ()).

(** [from('estimation_items').insert(rows)]: the call resolves to
    [{ error }]; on an error nothing is written. *)
Definition insert_items (rows : list ItemRow) (outcome : option string) : M (option string) :=
  fun db =>
    match outcome with
    | Some e => (db, Normal (Some e))
    | None =>
        (mkDatabase (projects db) (project_files db) (estimation_items db ++ rows),
         Normal None)
    end.

End Supabase.

(** ** [services/aiProviders.ts]: the result type of a document analysis *)

Module AiProviders.

Inductive AIProvider := openai | anthropic | google.

Record IdentifiedItem := mkIdentified {
  category : string;
  description : string;
  quantity : Q;
  unit_ : string;  (* [unit] in the source *)
  estimatedRate : Q;
  confidence : Q
}.

Record DocumentAnalysisResult := mkAnalysis {
  extractedText : string;
  identifiedItems : list IdentifiedItem;
  projectType : string;
  totalEstimatedCost : Q;
  accuracy : Q;
  insights : list string
}.

End AiProviders.

(** ** The outside world of one pipeline run *)

Module Env.
Import Supabase AiProviders.

(** A catalogue entry of the fallback estimator. *)
Record CatalogItem := mkCatalog {
  category : string;
  description : string;
  unit_ : string;
  baseRate : Q
}.

(** The random draws of one [generateFallbackEstimation] call.
    [sorted] is the array left by [items.sort(() => Math.random() - 0.5)];
    [slice_draw] is the draw in the [slice] bound; [quantity_draw i] and
    [rate_draw i] are the two draws made for the [i]-th selected item. *)
Record FallbackDraws := mkDraws {
  sorted : list CatalogItem;
  slice_draw : Q;
  quantity_draw : nat -> Q;
  rate_draw : nat -> Q
}.

(** The [File] built from a downloaded blob. *)
Record File := mkBrowserFile {
  name : string;
  type : string;
  data : string
}.

Record World := mkWorld {
  (** [aiProviderService.getAvailableProviders()] *)
  availableProviders : list AIProvider;
  (** the first non-empty API key of the environment, or [''] *)
  apiKey : string;
  (** [supabase.storage.from('project-files').download(url)]: rejects, or
      resolves to [{ data }] with [data] possibly null *)
  download : string -> Completion (option string);
  (** the readers behind [documentProcessor.processFile] *)
  extractContent : File -> Completion string;
  (** [aiProviderService.analyzeDocument(content, fileName, aiConfig)] *)
  analyzeDocument : string -> string -> Completion DocumentAnalysisResult;
  (** the [error] field of the [estimation_items] insert *)
  insertError : option string;
  (** [Math.random()] inside [generateFallbackEstimation] *)
  fallbackDraws : FallbackDraws;
  (** [Math.random()] in [92 + Math.random() * 6] *)
  accuracyDraw : Q;
  (** [Date.now() - startTime], in milliseconds *)
  elapsed : Q
}.

End Env.

(** ** [services/documentProcessor.ts] *)

Module DocumentProcessor.
Import Supabase AiProviders Env.

Record ProcessedDocument := mkProcessed {
  fileName : string;
  fileType : string;
  content : string;
  analysisResult : option DocumentAnalysisResult;
  error : option string
}.

(** [processFile]: whatever the reader of the file's type throws is caught
    and reported in the [error] field; the call itself never rejects. *)
Definition processFile (w : World) (file : File) : ProcessedDocument :=
  match extractContent w file with
  | Normal text => mkProcessed (name file) (type file) text None None
  | Throw message =>
      mkProcessed (name file) (type file) "" None
        (Some ("Failed to process " ++ name file ++ ": " ++ message))
  end.

(** [analyzeWithAI]: a rejected provider call is likewise caught and
    reported in the [error] field. *)
Definition analyzeWithAI (w : World) (document : ProcessedDocument) : ProcessedDocument :=
  match error document with
  | Some _ => document
  | None =>
      match analyzeDocument w (content document) (fileName document) with
      | Normal result =>
          mkProcessed (fileName document) (fileType document) (content document)
            (Some result) (error document)
      | Throw message =>
          mkProcessed (fileName document) (fileType document) (content document)
            (analysisResult document) (Some ("AI analysis failed: " ++ message))
      end
  end.

End DocumentProcessor.

(** ** [services/aiProcessing.ts] *)

Module AiProcessing.
Import JsNumber Supabase Supabase.Notations AiProviders Env DocumentProcessor.

Record EstimationItem := mkItem {
  category : string;
  description : string;
  quantity : Q;
  unit_ : string;  (* [unit] in the source *)
  rate : Q;
  amount : Q
}.

Record ProcessingResult := mkResult {
  totalCost : Q;
  items : list EstimationItem;
  accuracy : Q;
  processingTime : string
}.

(** The catalogue literal of [generateFallbackEstimation]. *)
Definition catalog : list CatalogItem := [
  mkCatalog "Structural" "Concrete Foundation" "m³" 450;
  mkCatalog "Structural" "Steel Framework" "tons" 2800;
  mkCatalog "Structural" "Reinforcement Bars" "kg" 1.2;
  mkCatalog "Civil" "Brick Work" "m²" 85;
  mkCatalog "Civil" "Plastering" "m²" 25;
  mkCatalog "Civil" "Flooring Tiles" "m²" 120;
  mkCatalog "Electrical" "Wiring & Fixtures" "lot" 185000;
  mkCatalog "Electrical" "Distribution Panel" "unit" 15000;
  mkCatalog "Plumbing" "Piping & Fixtures" "lot" 145000;
  mkCatalog "Plumbing" "Water Tank" "unit" 25000;
  mkCatalog "Finishing" "Interior Painting" "m²" 35;
  mkCatalog "Finishing" "Exterior Painting" "m²" 45;
  mkCatalog "HVAC" "Air Conditioning" "unit" 85000;
  mkCatalog "HVAC" "Ventilation System" "lot" 65000
].

(** [array.slice(0, end)] for an integral [end]: a negative [end] counts
    from the back, an [end] past the array stops at its length. *)
Definition slice0 {A} (l : list A) (e : Z) : list A :=
  let len := Z.of_nat (List.length l) in
  let final := if (e <? 0)%Z then Z.max (len + e) 0 else Z.min e len in
  take (Z.to_nat final) l.

(** The callback of [selectedItems.map], for the item at position [i]. *)
Definition fallbackItem (d : FallbackDraws) (i : nat) (item : CatalogItem)
  : EstimationItem :=
  let quantity := Math_floor (quantity_draw d i * 200) + 10 in
  let rate := baseRate item * (0.8 + rate_draw d i * 0.4) in
  let amount := quantity * rate in
  mkItem (Env.category item) (Env.description item) quantity (Env.unit_ item)
         (Math_round (rate * 100) / 100)
         (Math_round (amount * 100) / 100).

Definition generateFallbackEstimation (d : FallbackDraws) : list EstimationItem :=
  let selectedItems := slice0 (sorted d) (8 + Qfloor (slice_draw d * 5)) in
  imap (fallbackItem d) selectedItems.

(** [estimationItems.reduce((sum, item) => sum + item.amount, 0)] *)
Definition sumAmounts (estimationItems : list EstimationItem) : Q :=
  fold_left (fun sum item => sum + amount item) estimationItems 0.

(** The variables carried through the per-file loop. *)
Record Accumulators := mkAcc {
  allAnalysisResults : list DocumentAnalysisResult;
  totalEstimatedCost : Q;
  averageAccuracy : Q
}.

Definition useRealAI (w : World) : bool :=
  (0 <? List.length (availableProviders w))%nat && negb (String.eqb (apiKey w) "").

(** The part of the loop body guarded by [if (useRealAI)].  The only await
    that can reject here is the download; [processFile] and
    [analyzeWithAI] report their failures in the [error] field. *)
Definition analyzeFile (w : World) (fileRecord : FileRow) (acc : Accumulators)
  : M Accumulators :=
  let! fileData := await (download w (file_url fileRecord)) in
  match fileData with
  | None => ret acc
  | Some fileData =>
      let file := mkBrowserFile (file_name fileRecord) (file_type fileRecord) fileData in
      let processedDoc := processFile w file in
      match DocumentProcessor.error processedDoc with
      | Some _ => ret acc
      | None =>
          let analyzedDoc := analyzeWithAI w processedDoc in
          match analysisResult analyzedDoc, DocumentProcessor.error analyzedDoc with
          | Some result, None =>
              ret (mkAcc (allAnalysisResults acc ++ [result])
                         (totalEstimatedCost acc + AiProviders.totalEstimatedCost result)
                         (averageAccuracy acc + AiProviders.accuracy result))
          | _, _ => ret acc
          end
      end
  end.

(** The body of [for (const fileRecord of files)]. *)
Definition processFileRecord (w : World) (fileRecord : FileRow) (acc : Accumulators)
  : M Accumulators :=
  try_catch
    (do! update_file_status (id fileRecord) FileStatus.processing in
     let! acc' := (if useRealAI w then analyzeFile w fileRecord acc else ret acc) in
     do! update_file_status (id fileRecord) FileStatus.completed in
     ret acc')
    (fun _ =>
       do! update_file_status (id fileRecord) FileStatus.error in
       ret acc).  (* nothing was pushed before the rejection *)

(** [allAnalysisResults.flatMap(result => result.identifiedItems.map(...))] *)
Definition flattenResults (results : list DocumentAnalysisResult) : list EstimationItem :=
  List.flat_map
    (fun result =>
       List.map
         (fun item =>
            mkItem (AiProviders.category item) (AiProviders.description item)
                   (AiProviders.quantity item) (AiProviders.unit_ item)
                   (estimatedRate item)
                   (AiProviders.quantity item * estimatedRate item))
         (identifiedItems result))
    results.

(** The aggregation between the loop and the insert: the item list, the
    total and the accuracy that are saved and returned. *)
Definition aggregate (w : World) (acc : Accumulators) : list EstimationItem * Q * Q :=
  if useRealAI w && (0 <? List.length (allAnalysisResults acc))%nat then
    let estimationItems := flattenResults (allAnalysisResults acc) in
    if (List.length estimationItems =? 0)%nat then
      let estimationItems := generateFallbackEstimation (fallbackDraws w) in
      (estimationItems, sumAmounts estimationItems, 85)
    else
      (estimationItems, sumAmounts estimationItems,
       averageAccuracy acc / inject_Z (Z.of_nat (List.length (allAnalysisResults acc))))
  else
    let estimationItems := generateFallbackEstimation (fallbackDraws w) in
    (estimationItems, sumAmounts estimationItems, 92 + accuracyDraw w * 6).

Definition itemRow (projectId : string) (item : EstimationItem) : ItemRow :=
  mkItemRow projectId (category item) (description item) (quantity item)
            (unit_ item) (rate item) (amount item).

Definition setStatus (st : ProjectStatus.t) (p : ProjectRow) : ProjectRow :=
  mkProject (project_name p) (project_type p) st
            (total_cost p) (Supabase.accuracy p) (processing_time p).

Definition setResults (total acc : Q) (time : string) (p : ProjectRow) : ProjectRow :=
  mkProject (project_name p) (project_type p) ProjectStatus.completed
            total acc (Some time).

Definition processProjectFiles (w : World) (projectId : string) : M ProcessingResult :=
  try_catch
    (do! update_project projectId (setStatus ProjectStatus.processing) in
     let! files := select_files projectId in
     match files with
     | [] => throw "No files found for processing"
     | _ :: _ =>
         let! acc := for_of files (processFileRecord w) (mkAcc [] 0 0) in
         let '(estimationItems, totalEstimatedCost, averageAccuracy) := aggregate w acc in
         let processingTime := pretty (Qfloor (elapsed w / 1000 + (1 # 2))) ++ "s" in
         let! itemsError :=
           insert_items (List.map (itemRow projectId) estimationItems) (insertError w) in
         match itemsError with
         | Some e => throw e
         | None =>
             do! update_project projectId
                   (setResults totalEstimatedCost
                               (Math_round (averageAccuracy * 10) / 10)
                               processingTime) in
             ret (mkResult totalEstimatedCost estimationItems
                           (Math_round (averageAccuracy * 10) / 10)
                           processingTime)
         end
     end)
    (fun error =>
       do! update_project projectId (setStatus ProjectStatus.draft) in
       throw error).

End AiProcessing.

(** ** [hooks/useProjects.ts]: reading a project's estimation back *)

Module UseProjects.
Import Supabase.

(** [from('estimation_items').select('*').eq('project_id', projectId)] *)
Definition getProjectEstimation (projectId : string) (db : Database) : list ItemRow :=
  List.filter (fun row => String.eqb (item_project_id row) projectId)
              (estimation_items db).

End UseProjects.

(** ** Notions used in the statements *)

Module Notions.
Import JsNumber Supabase AiProviders Env DocumentProcessor AiProcessing.

(** A value [Math.random()] can return. *)
Definition isRandom (r : Q) : Prop := 0 <= r /\ r < 1.

(** Draws a run of [generateFallbackEstimation] can make: the comparator
    passed to [sort] is inconsistent, so the array may end in any order,
    but it holds the same fourteen entries. *)
Definition validDraws (d : FallbackDraws) : Prop :=
  sorted d ≡ₚ catalog /\
  isRandom (slice_draw d) /\
  (forall i, isRandom (quantity_draw d i)) /\
  (forall i, isRandom (rate_draw d i)).

(** The jittered rate of the [i]-th selected item before it is rounded. *)
Definition jitteredRate (d : FallbackDraws) (i : nat) (item : CatalogItem) : Q :=
  baseRate item * (0.8 + rate_draw d i * 0.4).

(** The unit pairs of the conversion table, in both directions. *)
Definition supportedUnitPairs : list (string * string) := [
  ("m²", "sq ft"); ("sq ft", "m²");
  ("m³", "cu ft"); ("cu ft", "m³");
  ("m", "ft"); ("ft", "m");
  ("kg", "lbs"); ("lbs", "kg")
].



(** What the loop body does to the accumulators, without the database. *)
Definition analysisOf (w : World) (fileRecord : FileRow) : option DocumentAnalysisResult :=
  match download w (file_url fileRecord) with
  | Normal (Some fileData) =>
      let file := mkBrowserFile (file_name fileRecord) (file_type fileRecord) fileData in
      let analyzedDoc := analyzeWithAI w (processFile w file) in
      match analysisResult analyzedDoc, DocumentProcessor.error analyzedDoc with
      | Some result, None => Some result
      | _, _ => None
      end
  | _ => None
  end.

(** The analysis results the loop collects from a list of file records. *)
Definition collected (w : World) (files : list FileRow) : list DocumentAnalysisResult :=
  if useRealAI w then omap (analysisOf w) files else [].

(** The file's processing (content extraction) or analysis fails. *)
Definition analysisFails (w : World) (fileRecord : FileRow) : Prop :=
  exists fileData,
    download w (file_url fileRecord) = Normal (Some fileData) /\
    is_Some (DocumentProcessor.error
               (analyzeWithAI w
                  (processFile w (mkBrowserFile (file_name fileRecord)
                                                (file_type fileRecord) fileData)))).

(** The files of a project, as the pipeline selects them. *)
Definition filesOf (projectId : string) (db : Database) : list FileRow :=
  List.filter (fun f => String.eqb (project_id f) projectId) (project_files db).

(** One iteration of the loop on the accumulators. *)
Definition pushResult (acc : Accumulators) (result : DocumentAnalysisResult)
  : Accumulators :=
  mkAcc (allAnalysisResults acc ++ [result])
        (totalEstimatedCost acc + AiProviders.totalEstimatedCost result)
        (averageAccuracy acc + AiProviders.accuracy result).

Definition step (w : World) (acc : Accumulators) (fileRecord : FileRow) : Accumulators :=
  if useRealAI w then
    match analysisOf w fileRecord with
    | Some result => pushResult acc result
    | None => acc
    end
  else acc.

(** The status an iteration leaves on its file record. *)
Definition statusAfter (w : World) (fileRecord : FileRow) : FileStatus.t :=
  if useRealAI w then
    match download w (file_url fileRecord) with
    | Throw _ => FileStatus.error
    | Normal _ => FileStatus.completed
    end
  else FileStatus.completed.

(** One iteration, and the whole loop, on the [project_files] table. *)
Definition markFile (fileId : string) (st : FileStatus.t) (rows : list FileRow)
  : list FileRow :=
  List.map (fun f => if String.eqb (id f) fileId then set_processing_status st f else f)
           rows.

Definition markAll (w : World) (files rows : list FileRow) : list FileRow :=
  fold_left (fun rows f => markFile (id f) (statusAfter w f) rows) files rows.

(** The accumulators at the end of the loop of a run. *)
Definition loopResult (w : World) (projectId : string) (db : Database) : Accumulators :=
  fold_left (step w) (filesOf projectId db) (mkAcc [] 0 0).

(** [Math.round(averageAccuracy * 10) / 10] *)
Definition roundedAccuracy (averageAccuracy : Q) : Q :=
  Math_round (averageAccuracy * 10) / 10.

(** The [processingTime] template string. *)
Definition processingTimeOf (w : World) : string :=
  pretty (Qfloor (elapsed w / 1000 + (1 # 2))) ++ "s".

(** The row of [project_files] for a file after the loop, followed through
    the iterations one by one. *)
Definition markRow (w : World) (files : list FileRow) (row : FileRow) : FileRow :=
  fold_left (fun r f => if String.eqb (id r) (id f)
                        then set_processing_status (statusAfter w f) r else r)
            files row.

End Notions.

(** ** A small project used in the examples *)

Module Examples.
Import Supabase AiProviders Env AiProcessing.

Definition exampleDraws : FallbackDraws :=
  mkDraws catalog 0.5 (fun _ => 0.5) (fun _ => 0.0001).

(** An analysis with one item worth 850 whose provider reports 999. *)
Definition brickwork : DocumentAnalysisResult :=
  mkAnalysis "Brick work, 10 m2" [mkIdentified "Civil" "Brick Work" 10 "m²" 85 90]
             "Residential" 999 90 [].

(** A configured provider whose call rejects for [bad.pdf]. *)
Definition exampleWorld : World :=
  mkWorld [openai] "sk-test"
          (fun _ => Normal (Some "%PDF"))
          (fun _ => Normal "text")
          (fun _ fileName =>
             if String.eqb fileName "bad.pdf" then Throw "timeout" else Normal brickwork)
          None exampleDraws 0.5 12345.

Definition badFile : FileRow :=
  mkFile "f1" "p1" "bad.pdf" "application/pdf" "p1/bad.pdf" FileStatus.pending.

Definition goodFile : FileRow :=
  mkFile "f2" "p1" "good.pdf" "application/pdf" "p1/good.pdf" FileStatus.pending.

Definition exampleDb : Database :=
  mkDatabase
    {[ "p1" := mkProject "Villa" "Residential" ProjectStatus.draft 0 0 None ]}
    [badFile; goodFile] [].

End Examples.

(** ** [utils/localization.ts]: the service object *)

Module LocalizationService.
Import JsNumber Localization.

(** The instance state: the [currentCountry] field and the
    ['selectedCountry'] item of [localStorage] ([None] for [null]). *)
Record Service := mkService {
  currentCountry : CountryConfig;
  selectedCountry : option string
}.

(** [setCountry] *)
Definition setCountry (countryCode : string) (s : Service) : Service :=
  match List.find (fun c => String.eqb (code c) countryCode) COUNTRIES with
  | Some country => mkService country (Some countryCode)
  | None => s
  end.

(** [getCurrentCountry]: the returned profile and the state it leaves. *)
Definition getCurrentCountry (s : Service) : CountryConfig * Service :=
  let s' :=
    match selectedCountry s with
    | Some savedCountry =>
        if String.eqb savedCountry "" then s
        else
          match List.find (fun c => String.eqb (code c) savedCountry) COUNTRIES with
          | Some country => mkService country (selectedCountry s)
          | None => s
          end
    | None => s
    end in
  (currentCountry s', s').

(** [getCurrencySymbol]; both [||] test a string, of which only the empty
    one is falsy. *)
Definition getCurrencySymbol (s : Service) (currency : option string) : string :=
  let targetCurrency :=
    match currency with
    | Some c => if String.eqb c "" then Localization.currency (currentCountry s) else c
    | None => Localization.currency (currentCountry s)
    end in
  match List.find (fun c => String.eqb (Localization.currency c) targetCurrency) COUNTRIES with
  | Some country =>
      if String.eqb (currencySymbol country) "" then targetCurrency
      else currencySymbol country
  | None => targetCurrency
  end.

Definition getConstructionUnits (s : Service) : ConstructionUnits :=
  constructionUnits (currentCountry s).

Definition getMeasurementSystem (s : Service) : MeasurementSystem :=
  measurementSystem (currentCountry s).

(** The table local to [getRegionalCostFactors], in source order. *)
Definition factors_entries : list (string * list (string * Q)) := [
  ("US", [("labor", 1.0); ("materials", 1.0); ("equipment", 1.0);
          ("structural", 1.0); ("civil", 1.0); ("electrical", 1.0);
          ("plumbing", 1.0); ("finishing", 1.0); ("hvac", 1.0)]);
  ("GB", [("labor", 1.2); ("materials", 1.1); ("equipment", 1.15);
          ("structural", 1.1); ("civil", 1.1); ("electrical", 1.15);
          ("plumbing", 1.2); ("finishing", 1.1); ("hvac", 1.15)]);
  ("DE", [("labor", 1.3); ("materials", 1.2); ("equipment", 1.25);
          ("structural", 1.2); ("civil", 1.2); ("electrical", 1.25);
          ("plumbing", 1.3); ("finishing", 1.2); ("hvac", 1.25)]);
  ("FR", [("labor", 1.25); ("materials", 1.15); ("equipment", 1.2);
          ("structural", 1.15); ("civil", 1.15); ("electrical", 1.2);
          ("plumbing", 1.25); ("finishing", 1.15); ("hvac", 1.2)]);
  ("JP", [("labor", 1.5); ("materials", 1.4); ("equipment", 1.3);
          ("structural", 1.4); ("civil", 1.4); ("electrical", 1.3);
          ("plumbing", 1.5); ("finishing", 1.4); ("hvac", 1.3)]);
  ("IN", [("labor", 0.3); ("materials", 0.7); ("equipment", 0.8);
          ("structural", 0.7); ("civil", 0.6); ("electrical", 0.8);
          ("plumbing", 0.7); ("finishing", 0.5); ("hvac", 0.8)]);
  ("CN", [("labor", 0.4); ("materials", 0.8); ("equipment", 0.9);
          ("structural", 0.8); ("civil", 0.7); ("electrical", 0.9);
          ("plumbing", 0.8); ("finishing", 0.6); ("hvac", 0.9)]);
  ("BR", [("labor", 0.5); ("materials", 0.9); ("equipment", 0.85);
          ("structural", 0.9); ("civil", 0.8); ("electrical", 0.85);
          ("plumbing", 0.9); ("finishing", 0.7); ("hvac", 0.85)]);
  ("MX", [("labor", 0.4); ("materials", 0.8); ("equipment", 0.75);
          ("structural", 0.8); ("civil", 0.7); ("electrical", 0.75);
          ("plumbing", 0.8); ("finishing", 0.6); ("hvac", 0.75)]);
  ("AE", [("labor", 0.6); ("materials", 1.1); ("equipment", 1.0);
          ("structural", 1.1); ("civil", 1.0); ("electrical", 1.0);
          ("plumbing", 1.1); ("finishing", 0.9); ("hvac", 1.0)]);
  ("AU", [("labor", 1.4); ("materials", 1.3); ("equipment", 1.2);
          ("structural", 1.3); ("civil", 1.3); ("electrical", 1.2);
          ("plumbing", 1.4); ("finishing", 1.3); ("hvac", 1.2)]);
  ("CA", [("labor", 1.1); ("materials", 1.05); ("equipment", 1.1);
          ("structural", 1.05); ("civil", 1.05); ("electrical", 1.1);
          ("plumbing", 1.1); ("finishing", 1.05); ("hvac", 1.1)]);
  ("CH", [("labor", 1.8); ("materials", 1.5); ("equipment", 1.4);
          ("structural", 1.5); ("civil", 1.5); ("electrical", 1.4);
          ("plumbing", 1.8); ("finishing", 1.5); ("hvac", 1.4)]);
  ("NO", [("labor", 1.6); ("materials", 1.3); ("equipment", 1.3);
          ("structural", 1.3); ("civil", 1.3); ("electrical", 1.3);
          ("plumbing", 1.6); ("finishing", 1.3); ("hvac", 1.3)]);
  ("SE", [("labor", 1.4); ("materials", 1.2); ("equipment", 1.2);
          ("structural", 1.2); ("civil", 1.2); ("electrical", 1.2);
          ("plumbing", 1.4); ("finishing", 1.2); ("hvac", 1.2)])
].

Definition factors : gmap string (gmap string Q) :=
  list_to_map ((fun entry => (entry.1, list_to_map entry.2)) <$> factors_entries).

(** [getRegionalCostFactors]: [factors[code] || factors['US']]; an object is
    always truthy, so the right operand is taken exactly when the country has
    no entry. *)
Definition getRegionalCostFactors (s : Service) : option (gmap string Q) :=
  match factors !! code (currentCountry s) with
  | Some f => Some f
  | None => factors !! "US"
  end.

End LocalizationService.

(** ** [components/EstimationResults.tsx]: items as they are displayed *)

Module EstimationResults.
Import JsNumber Localization LocalizationService AiProcessing.

(** [convertUnitsForDisplay].  [toLowerCase] stands for
    [String.prototype.toLowerCase]; [costFactors] is the object returned by
    [getRegionalCostFactors]. *)
Definition convertUnitsForDisplay (toLowerCase : string -> string) (s : Service)
    (costFactors : gmap string Q) (item : EstimationItem) : EstimationItem :=
  let localUnits := getConstructionUnits s in
  let measurementSystem := getMeasurementSystem s in
  let categoryFactor :=
    or_default (costFactors !! toLowerCase (category item))
               (or_default (costFactors !! "materials") 1) in
  let displayRate := rate item * categoryFactor in
  let '(displayQuantity, displayUnit, displayRate) :=
    match measurementSystem with
    | metric =>
        if String.eqb (unit_ item) "sq ft" then
          (convertUnits (quantity item) "sq ft" "m²", area localUnits,
           displayRate / convertUnits 1 "sq ft" "m²")
        else (quantity item, unit_ item, displayRate)
    | imperial =>
        if String.eqb (unit_ item) "m²" then
          (convertUnits (quantity item) "m²" "sq ft", area localUnits,
           displayRate / convertUnits 1 "m²" "sq ft")
        else (quantity item, unit_ item, displayRate)
    end in
  mkItem (category item) (description item) displayQuantity displayUnit displayRate
         (displayQuantity * displayRate).



End EstimationResults.

(** ** [services/fileUpload.ts] *)

Module FileUpload.
Import Supabase.

(** The [name], [size] and [type] of a [File] picked in the browser. *)
Record LocalFile := mkLocalFile {
  name : string;
  size : Z;
  type : string
}.

Record UploadedFile := mkUploaded {
  uploaded_id : string;
  uploaded_name : string;
  uploaded_size : Z;
  uploaded_type : string;
  url : string
}.

(** The tables together with the object paths of the ['project-files']
    bucket. *)
Record Backend := mkBackend {
  database : Database;
  bucket : list string
}.

(** [{ data, error }] of [storage.upload]. *)
Inductive UploadOutcome :=
| UploadError (message : string)
| UploadNoData
| UploadData.

(** [{ data, error }] of [insert(...).select().single()]; the record's [id]
    is generated by the database. *)
Inductive InsertOutcome :=
| InsertError (message : string)
| InsertNoRecord
| InsertRecord (id : string).

(** What the environment decides for the file at position [i] of the array. *)
Record UploadWorld := mkUploadWorld {
  (** [String.prototype.toLowerCase] *)
  toLowerCase : string -> string;
  (** [Date.now()], printed in the template *)
  timestamp : nat -> string;
  (** [Math.random().toString(36).substring(2)] *)
  randomId : nat -> string;
  uploadOutcome : nat -> UploadOutcome;
  (** [getPublicUrl(fileName).data.publicUrl] *)
  publicUrl : string -> string;
  insertOutcome : nat -> InsertOutcome
}.

(** [name.split('.').pop()]: the text after the last dot, the whole name
    when it has none. *)
Fixpoint lastSegment (s segment : string) : string :=
  match s with
  | EmptyString => segment
  | String c rest =>
      if Ascii.eqb c "."%char then lastSegment rest EmptyString
      else lastSegment rest (segment ++ String c EmptyString)
  end.

(** [s.includes(sub)] *)
Fixpoint includes (s sub : string) : bool :=
  String.prefix sub s ||
  match s with
  | EmptyString => false
  | String _ rest => includes rest sub
  end.

(** [x || d] on strings: only the empty string is falsy. *)
Definition or_string (x d : string) : string :=
  if String.eqb x "" then d else x.

(** The double quote of the template strings. *)
Definition quote : string := String "034"%char EmptyString.

Definition quoted (s : string) : string := quote ++ s ++ quote.

Definition maxSize : Z := 50 * 1024 * 1024.

Definition storagePath (w : UploadWorld) (projectId : string) (i : nat)
    (file : LocalFile) : string :=
  let fileExt := or_string (toLowerCase w (lastSegment (name file) "")) "bin" in
  projectId ++ "/" ++ timestamp w i ++ "-" ++ randomId w i ++ "." ++ fileExt.

(** The message thrown for an [uploadError]. *)
Definition uploadErrorMessage (file : LocalFile) (message : string) : string :=
  if includes message "Bucket not found" then
    "Storage bucket not found. Please contact support."
  else if includes message "not allowed" then
    "File type not allowed. Please check file permissions."
  else if includes message "too large" then
    "File " ++ quoted (name file) ++ " is too large. Please reduce file size."
  else "Failed to upload " ++ quoted (name file) ++ ": " ++ message.

Definition fileRow (projectId fileName id : string) (file : LocalFile) : FileRow :=
  mkFile id projectId (name file) (or_string (type file) "application/octet-stream")
         fileName FileStatus.pending.

(** What one iteration of the loop does for a file it does not skip: the
    body of the [try], with the message of the error it throws. *)
Definition uploadOne (w : UploadWorld) (projectId : string) (i : nat)
    (file : LocalFile) (b : Backend) : Backend * Completion UploadedFile :=
  if (maxSize <? size file)%Z then
    (b, Throw ("File " ++ quoted (name file) ++ " is too large. Maximum size is 50MB."))
  else
    let fileName := storagePath w projectId i file in
    match uploadOutcome w i with
    | UploadError message => (b, Throw (uploadErrorMessage file message))
    | UploadNoData =>
        (b, Throw ("Upload failed for " ++ quoted (name file) ++ ": No data returned"))
    | UploadData =>
        let stored := mkBackend (database b) (bucket b ++ [fileName]) in
        if String.eqb (publicUrl w fileName) "" then
          (stored, Throw ("Failed to get public URL for " ++ quoted (name file)))
        else
          match insertOutcome w i with
          | InsertError message =>
              (mkBackend (database b)
                         (List.filter (fun p => negb (String.eqb p fileName))
                                      (bucket stored)),
               Throw ("Failed to save file record for " ++ quoted (name file) ++ ": "
                        ++ message))
          | InsertNoRecord =>
              (stored, Throw ("Failed to create file record for " ++ quoted (name file)))
          | InsertRecord id =>
              (mkBackend
                 (mkDatabase (projects (database b))
                             (project_files (database b)
                                ++ [fileRow projectId fileName id file])
                             (estimation_items (database b)))
                 (bucket stored),
               Normal (mkUploaded id (name file) (size file)
                                  (or_string (type file) "application/octet-stream")
                                  (publicUrl w fileName)))
          end
    end.

(** [for (const file of files)], with the position of the file and the
    [uploadedFiles] collected so far. *)
Fixpoint uploadLoop (w : UploadWorld) (projectId : string) (i : nat)
    (files : list LocalFile) (uploadedFiles : list UploadedFile) (b : Backend)
  : Backend * Completion (list UploadedFile) :=
  match files with
  | [] => (b, Normal uploadedFiles)
  | file :: rest =>
      if (size file =? 0)%Z then uploadLoop w projectId (S i) rest uploadedFiles b
      else
        match uploadOne w projectId i file b with
        | (b', Normal uploaded) =>
            uploadLoop w projectId (S i) rest (uploadedFiles ++ [uploaded]) b'
        | (b', Throw message) =>
            (b', Throw ("Error uploading file " ++ quoted (name file) ++ ": " ++ message))
        end
  end.

Definition uploadProjectFiles (w : UploadWorld) (projectId : string)
    (files : list LocalFile) (b : Backend) : Backend * Completion (list UploadedFile) :=
  match files with
  | [] => (b, Throw "No files provided for upload")
  | _ :: _ =>
      if String.eqb projectId "" then
        (b, Throw "Project ID is required for file upload")
      else
        match uploadLoop w projectId 0 files [] b with
        | (b', Normal []) => (b', Throw "No files were successfully uploaded")
        | outcome => outcome
        end
  end.


End FileUpload.

(** ** [hooks/useProjects.ts]: deleting a project *)

Module ProjectsHook.
Import Supabase.

(** [from('projects').delete().eq('id', id)].  Both [project_files] and
    [estimation_items] declare [project_id ... REFERENCES projects(id) ON
    DELETE CASCADE], so their rows go with the project. *)
Definition delete_project (projectId : string) (db : Database) : Database :=
  mkDatabase (delete projectId (projects db))
             (List.filter (fun f => negb (String.eqb (project_id f) projectId))
                          (project_files db))
             (List.filter (fun row => negb (String.eqb (item_project_id row) projectId))
                          (estimation_items db)).

(** [deleteProject]: [cached] is the [projects] state of the hook, [error]
    whether the delete reports an error. *)
Definition deleteProject (error : bool) (projectId : string)
    (cached : list (string * ProjectRow)) (db : Database)
  : Database * list (string * ProjectRow) * bool :=
  if error then (db, cached, false)
  else (delete_project projectId db,
        List.filter (fun project => negb (String.eqb project.1 projectId)) cached,
        true).

End ProjectsHook.

(** ** [components/ProjectsList.tsx]: opening a project *)

Module ProjectsList.
Import JsNumber Supabase AiProcessing.










End ProjectsList.

(** ** [services/documentProcessor.ts]: the readers behind [processFile] *)

Module DocumentReaders.
Import Supabase Env DocumentProcessor FileUpload.

(** The [FileReader] calls and the text extraction from PDF bytes, which are
    the browser's. *)
Record Readers := mkReaders {
  fileToArrayBuffer : File -> Completion string;
  fileToText : File -> Completion string;
  (** the expression [extractPDFText] computes from the decoded bytes *)
  pdfText : string -> string
}.

(** [s.endsWith(suffix)] *)
Fixpoint endsWith (s suffix : string) : bool :=
  String.eqb s suffix ||
  match s with
  | EmptyString => false
  | String _ rest => endsWith rest suffix
  end.

Definition extractPDFText (r : Readers) (file : File) : Completion string :=
  match fileToArrayBuffer r file with
  | Normal arrayBuffer => Normal (pdfText r arrayBuffer)
  | Throw e => Throw e
  end.

Definition extractWordText (r : Readers) (file : File) : Completion string :=
  match fileToArrayBuffer r file with
  | Normal _ =>
      Normal "Word document detected. Content extraction requires server-side processing for full accuracy."
  | Throw e => Throw e
  end.

Definition extractExcelText (file : File) : Completion string :=
  Normal "Excel spreadsheet detected. Content extraction requires specialized processing for full accuracy.".

(** The chain of conditions in the [try] of [processFile]. *)
Definition extractByType (r : Readers) (file : File) : Completion string :=
  if String.eqb (Env.type file) "application/pdf" then extractPDFText r file
  else if String.prefix "image/" (Env.type file) then fileToArrayBuffer r file
  else if includes (Env.type file) "word" || endsWith (Env.name file) ".docx" then
    extractWordText r file
  else if includes (Env.type file) "sheet" || endsWith (Env.name file) ".xlsx" then
    extractExcelText file
  else fileToText r file.

(** A world whose [processFile] reads files with [r]. *)
Definition withReaders (r : Readers) (w : World) : World :=
  mkWorld (availableProviders w) (apiKey w) (download w) (extractByType r)
          (analyzeDocument w) (insertError w) (fallbackDraws w) (accuracyDraw w)
          (elapsed w).

End DocumentReaders.

(** ** Further notions used in the statements *)

Module MoreNotions.
Import JsNumber Localization LocalizationService Supabase AiProviders Env AiProcessing.
Import FileUpload.

Definition costCategories : list string :=
  ["labor"; "materials"; "equipment"; "structural"; "civil"; "electrical";
   "plumbing"; "finishing"; "hvac"].

Definition unitFactors : gmap string Q :=
  list_to_map ((fun cat => (cat, 1.0)) <$> costCategories).

(** The regional factor [convertUnitsForDisplay] applies to an item. *)
Definition categoryFactorOf (toLowerCase : string -> string)
    (costFactors : gmap string Q) (item : EstimationItem) : Q :=
  or_default (costFactors !! toLowerCase (category item))
             (or_default (costFactors !! "materials") 1).

(** [allAnalysisResults.length] as a number, and the mean the aggregation
    takes over the collected results. *)
Definition sumAccuracy (results : list DocumentAnalysisResult) : Q :=
  fold_left (fun sum result => sum + AiProviders.accuracy result) results 0.

(** The files the loop does not skip. *)
Definition kept (files : list LocalFile) : list LocalFile :=
  List.filter (fun file => negb (size file =? 0)%Z) files.

(** What a stored file record looks like. *)
Definition pendingRowOf (projectId : string) (row : FileRow) : Prop :=
  project_id row = projectId /\
  processing_status row = FileStatus.pending /\
  String.prefix (projectId ++ "/") (file_url row) = true.

End MoreNotions.

(** ** Further examples *)

Module MoreExamples.
Import JsNumber Localization LocalizationService Supabase AiProviders Env AiProcessing.
Import FileUpload Examples.

Definition unitedKingdom : CountryConfig :=
  mkCountry "GB" "United Kingdom" "GBP" "£" "en-GB" "DD/MM/YYYY" "1,234.56"
            "Europe/London" metric (mkUnits "m²" "m³" "m" "kg").

Definition japan : CountryConfig :=
  mkCountry "JP" "Japan" "JPY" "¥" "en-JP" "YYYY/MM/DD" "1,234"
            "Asia/Tokyo" metric (mkUnits "m²" "m³" "m" "kg").

Definition rejectingInsertWorld : World :=
  mkWorld [] "" (fun _ => Normal None) (fun _ => Normal "")
          (fun _ _ => Throw "unused") (Some "permission denied")
          exampleDraws 0.5 2000.

Definition simulationWorld : World :=
  mkWorld [] "" (fun _ => Normal None) (fun _ => Normal "")
          (fun _ _ => Throw "unused") None exampleDraws 0.5 2000.

Definition exampleUploadWorld : UploadWorld :=
  mkUploadWorld (fun s => s) (fun _ => "1718133557000") (fun i => "k" ++ pretty i)
                (fun _ => UploadData) (fun path => "https://cdn.example/" ++ path)
                (fun i => InsertRecord ("file-" ++ pretty i)).

Definition planFile : LocalFile := mkLocalFile "plan.pdf" 2048 "application/pdf".

Definition emptyFile : LocalFile := mkLocalFile "notes.txt" 0 "text/plain".

Definition hugeFile : LocalFile := mkLocalFile "scan.tiff" (maxSize + 1) "image/tiff".

Definition emptyBackend : Backend :=
  mkBackend
    (mkDatabase {[ "p1" := mkProject "Villa" "Residential" ProjectStatus.draft 0 0 None ]}
                [] [])
    [].


(** Readers that fail on every file. *)
Definition failingReaders : DocumentReaders.Readers :=
  DocumentReaders.mkReaders (fun _ => Throw "NotReadableError")
                            (fun _ => Throw "NotReadableError") (fun bytes => bytes).

End MoreExamples.

(** * Properties *)

(** ** Localization *)

Module LocalizationFacts.
Import JsNumber Localization Notions.

Lemma truthy_nonzero x : truthy x = true -> ~ x == 0.
Proof.
  unfold truthy. intros H E. apply Qeq_bool_iff in E. rewrite E in H. discriminate.
Qed.

Lemma or_default_one_nonzero o : ~ or_default o 1 == 0.
Proof.
  unfold or_default. destruct o as [v|]; [destruct (truthy v) eqn:T|].
  - by apply truthy_nonzero.
  - discriminate.
  - discriminate.
Qed.

(** The table literal has no repeated key, so reading it as a map loses
    nothing, and its entries are exactly its lookups. *)
Lemma EXCHANGE_RATES_keys : NoDup EXCHANGE_RATES_entries.*1.
Proof. apply (bool_decide_unpack _). vm_compute. reflexivity. Qed.

Lemma EXCHANGE_RATES_lookup c r :
  EXCHANGE_RATES !! c = Some r <-> (c, r) ∈ EXCHANGE_RATES_entries.
Proof. symmetry. apply elem_of_list_to_map. exact EXCHANGE_RATES_keys. Qed.

Lemma EXCHANGE_RATES_base : EXCHANGE_RATES !! "USD" = Some 1.00.
Proof. vm_compute. reflexivity. Qed.

Lemma EXCHANGE_RATES_positive c r : EXCHANGE_RATES !! c = Some r -> 0 < r.
Proof.
  intros H. apply elem_of_list_to_map_2 in H.
  assert (F : Forall (fun p => 0 < p.2) EXCHANGE_RATES_entries)
    by (unfold EXCHANGE_RATES_entries; repeat (constructor; [exact eq_refl|]); constructor).
  rewrite Forall_forall in F. exact (F (c, r) H).
Qed.

Lemma or_default_table c r :
  EXCHANGE_RATES !! c = Some r -> or_default (EXCHANGE_RATES !! c) 1 = r.
Proof.
  intros H. rewrite H. unfold or_default.
  destruct (truthy r) eqn:T; [done|].
  apply EXCHANGE_RATES_positive in H.
  unfold truthy in T. apply negb_false_iff, Qeq_bool_iff in T. lra.
Qed.

Lemma convertCurrency_distinct x A B :
  A <> B ->
  convertCurrency x A B =
    x / or_default (EXCHANGE_RATES !! A) 1 * or_default (EXCHANGE_RATES !! B) 1.
Proof.
  intros H. unfold convertCurrency.
  destruct (String.eqb_spec A B); [done|reflexivity].
Qed.

Lemma convertCurrency_round_trip_any x A B :
  convertCurrency (convertCurrency x A B) B A == x.
Proof.
  unfold convertCurrency. rewrite (String.eqb_sym B A).
  destruct (String.eqb A B); [reflexivity|].
  pose proof (or_default_one_nonzero (EXCHANGE_RATES !! A)).
  pose proof (or_default_one_nonzero (EXCHANGE_RATES !! B)).
  cbv zeta. field. split; assumption.
Qed.


(** C5.  Converting an amount from a currency to the same currency returns
    the amount itself, for every amount and every currency code, whether
    the code is in the exchange-rate table or not: the comparison
    [fromCurrency === toCurrency] is taken before any rate is read. *)
Theorem convertCurrency_identity (x : Q) (A : string) :
  convertCurrency x A A = x.
Proof.
  unfold convertCurrency.
  destruct (String.eqb_spec A A) as [_|Hne]; [reflexivity|by destruct Hne].
Qed.

(** C4.  For currencies [A] and [B] of the exchange-rate table, a
    conversion between distinct currencies divides by the rate of [A] and
    multiplies by the rate of [B], and converting there and back returns
    the amount (exactly so over the rationals). *)
Theorem convertCurrency_round_trip (x : Q) (A B : string) (rA rB : Q) :
  EXCHANGE_RATES !! A = Some rA ->
  EXCHANGE_RATES !! B = Some rB ->
  (A <> B -> convertCurrency x A B = x / rA * rB) /\
  convertCurrency (convertCurrency x A B) B A == x.
Proof.
  intros HA HB. split.
  - intros Hne. rewrite (convertCurrency_distinct _ _ _ Hne).
    by rewrite (or_default_table _ _ HA), (or_default_table _ _ HB).
  - apply convertCurrency_round_trip_any.
Qed.

Lemma convertCurrency_round_trip_witness :
  convertCurrency 1000 "USD" "EUR" = 1000 / 1.00 * 0.85 /\
  convertCurrency (convertCurrency 1000 "USD" "EUR") "EUR" "USD" == 1000.
Proof.
  destruct (convertCurrency_round_trip 1000 "USD" "EUR" 1.00 0.85) as [H1 H2].
  - vm_compute. reflexivity.
  - vm_compute. reflexivity.
  - split; [apply H1; discriminate | exact H2].
Defined.



Lemma convertUnits_factor v U V k :
  String.eqb U V = false ->
  conversions !! U ≫= (.!! V) = Some k ->
  truthy k = true ->
  convertUnits v U V = v * k.
Proof.
  intros HUV Hk Ht. unfold convertUnits. by rewrite HUV, Hk, Ht.
Qed.

Ltac unit_factor k :=
  rewrite (convertUnits_factor _ _ _ k) by (vm_compute; reflexivity).

Ltac within_one_percent :=
  apply Qabs_case; intros ?; apply Qabs_case; intros ?; lra.

(** C6.  For each unit pair of the conversion table (area, volume, length
    and weight, in either direction) and every value, converting forth and
    back gives a value within 1% of the original. *)
Theorem convertUnits_round_trip (v : Q) (U V : string) :
  (U, V) ∈ supportedUnitPairs ->
  Qabs (convertUnits (convertUnits v U V) V U - v) <= (1 # 100) * Qabs v.
Proof.
  unfold supportedUnitPairs. intros H.
  repeat (apply elem_of_cons in H as [H|H]; [injection H as -> ->|]).
  - unit_factor 0.0929. unit_factor 10.764. within_one_percent.
  - unit_factor 10.764. unit_factor 0.0929. within_one_percent.
  - unit_factor 0.0283. unit_factor 35.314. within_one_percent.
  - unit_factor 35.314. unit_factor 0.0283. within_one_percent.
  - unit_factor 0.305. unit_factor 3.281. within_one_percent.
  - unit_factor 3.281. unit_factor 0.305. within_one_percent.
  - unit_factor 0.454. unit_factor 2.205. within_one_percent.
  - unit_factor 2.205. unit_factor 0.454. within_one_percent.
  - by apply elem_of_nil in H.
Qed.

Lemma convertUnits_round_trip_witness :
  Qabs (convertUnits (convertUnits 250 "m²" "sq ft") "sq ft" "m²" - 250)
    <= (1 # 100) * Qabs 250.
Proof.
  apply (convertUnits_round_trip 250 "m²" "sq ft").
  unfold supportedUnitPairs. apply elem_of_cons. left. reflexivity.
Defined.



(** An unrecognised locale and time zone resolve to the US profile. *)
Example detectUserCountry_unrecognised :
  code <$> detectUserCountry "xx-YY" "Mars/Olympus_Mons" = Some "US".
Proof. reflexivity. Qed.

Example detectUserCountry_by_timezone :
  code <$> detectUserCountry "fr-FR" "Europe/Paris" = Some "FR".
Proof. reflexivity. Qed.

Example convertCurrency_display : convertCurrency 1000 "USD" "EUR" == 850.
Proof. vm_compute. reflexivity. Qed.

End LocalizationFacts.

(** ** The processing pipeline *)

Module PipelineFacts.
Import JsNumber Supabase Supabase.Notations AiProviders Env DocumentProcessor.
Import AiProcessing UseProjects Notions Examples.

(** *** The monad *)

Lemma bind_ret_l {A B} (a : A) (k : A -> M B) db : bind (ret a) k db = k a db.
Proof. reflexivity. Qed.

Lemma bind_ret_r {A} (m : M A) db : bind m ret db = m db.
Proof. unfold bind, ret. by destruct (m db) as [db' [a|e]]. Qed.

Lemma bind_assoc {A B C} (m : M A) (k : A -> M B) (h : B -> M C) db :
  bind (bind m k) h db = bind m (fun a => bind (k a) h) db.
Proof. unfold bind. by destruct (m db) as [db' [a|e]]. Qed.

Lemma try_catch_throw {A} e (handler : string -> M A) db :
  try_catch (throw e) handler db = handler e db.
Proof. reflexivity. Qed.

(** *** The loop *)

Lemma analyzeFile_run w f acc db :
  analyzeFile w f acc db =
    (db, match download w (file_url f) with
         | Throw e => Throw e
         | Normal _ =>
             Normal (match analysisOf w f with
                     | Some result => pushResult acc result
                     | None => acc
                     end)
         end).
Proof.
  unfold analyzeFile, analysisOf, bind, await, ret.
  destruct (download w (file_url f)) as [[fileData|]|e]; try reflexivity.
  cbv zeta.
  set (file := mkBrowserFile _ _ _).
  destruct (DocumentProcessor.error (processFile w file)) as [msg|] eqn:E.
  - unfold analyzeWithAI. rewrite E. rewrite E.
    by destruct (analysisResult (processFile w file)).
  - destruct (analysisResult (analyzeWithAI w (processFile w file))) as [result|];
      [destruct (DocumentProcessor.error (analyzeWithAI w (processFile w file)))|];
      reflexivity.
Qed.

Lemma markFile_twice fid st st' rows :
  markFile fid st' (markFile fid st rows) = markFile fid st' rows.
Proof.
  unfold markFile. rewrite List.map_map. apply List.map_ext. intros f.
  destruct (String.eqb (id f) fid) eqn:E; cbn; by rewrite E.
Qed.

Lemma processFileRecord_run w f acc db :
  processFileRecord w f acc db =
    (mkDatabase (projects db)
                (markFile (id f) (statusAfter w f) (project_files db))
                (estimation_items db),
     Normal (step w acc f)).
Proof.
  unfold processFileRecord, try_catch, bind, update_file_status, step, statusAfter.
  cbn [projects project_files estimation_items].
  destruct (useRealAI w).
  - rewrite analyzeFile_run.
    destruct (download w (file_url f)) as [o|e] eqn:D.
    + cbn. fold (markFile (id f) FileStatus.processing (project_files db)).
      fold (markFile (id f) FileStatus.completed
              (markFile (id f) FileStatus.processing (project_files db))).
      by rewrite markFile_twice.
    + cbn. fold (markFile (id f) FileStatus.processing (project_files db)).
      fold (markFile (id f) FileStatus.error
              (markFile (id f) FileStatus.processing (project_files db))).
      rewrite markFile_twice.
      unfold analysisOf. by rewrite D.
  - cbn. fold (markFile (id f) FileStatus.processing (project_files db)).
    fold (markFile (id f) FileStatus.completed
            (markFile (id f) FileStatus.processing (project_files db))).
    by rewrite markFile_twice.
Qed.

Lemma for_of_run w files acc db :
  for_of files (processFileRecord w) acc db =
    (mkDatabase (projects db) (markAll w files (project_files db)) (estimation_items db),
     Normal (fold_left (step w) files acc)).
Proof.
  revert acc db. induction files as [|f files IH]; intros acc db.
  - by destruct db.
  - cbn [for_of]. unfold bind. rewrite processFileRecord_run, IH. reflexivity.
Qed.

(** *** A whole run *)

Lemma processProjectFiles_run w pid db :
  processProjectFiles w pid db =
    let started := alter (setStatus ProjectStatus.processing) pid (projects db) in
    let rows := markAll w (filesOf pid db) (project_files db) in
    let '(its, total, average) := aggregate w (loopResult w pid db) in
    match filesOf pid db, insertError w with
    | [], _ =>
        (mkDatabase (alter (setStatus ProjectStatus.draft) pid started)
                    (project_files db) (estimation_items db),
         Throw "No files found for processing")
    | _ :: _, Some e =>
        (mkDatabase (alter (setStatus ProjectStatus.draft) pid started)
                    rows (estimation_items db),
         Throw e)
    | _ :: _, None =>
        (mkDatabase
           (alter (setResults total (roundedAccuracy average) (processingTimeOf w))
                  pid started)
           rows
           (estimation_items db ++ List.map (itemRow pid) its),
         Normal (mkResult total its (roundedAccuracy average) (processingTimeOf w)))
    end.
Proof.
  unfold processProjectFiles, try_catch, bind, update_project, select_files, loopResult.
  cbn [projects project_files estimation_items]. fold (filesOf pid db).
  destruct (filesOf pid db) as [|f files] eqn:F.
  - cbn. by destruct (aggregate w _) as [[? ?] ?].
  - rewrite for_of_run. cbn [projects project_files estimation_items].
    destruct (aggregate w _) as [[its total] average].
    unfold insert_items, throw, ret.
    by destruct (insertError w).
Qed.

(** The two ways a run fails: both leave the project in [draft]. *)
Lemma processProjectFiles_no_files w pid db :
  filesOf pid db = [] ->
  exists db',
    processProjectFiles w pid db = (db', Throw "No files found for processing") /\
    status <$> projects db' !! pid = (fun _ => ProjectStatus.draft) <$> projects db !! pid /\
    estimation_items db' = estimation_items db.
Proof.
  intros F. rewrite processProjectFiles_run, F. cbv zeta.
  destruct (aggregate w _) as [[? ?] ?]. eexists. split; [reflexivity|].
  cbn [projects estimation_items]. rewrite !lookup_alter_eq.
  by destruct (projects db !! pid).
Qed.

Lemma processProjectFiles_insert_error w pid db e :
  filesOf pid db <> [] ->
  insertError w = Some e ->
  exists db',
    processProjectFiles w pid db = (db', Throw e) /\
    status <$> projects db' !! pid = (fun _ => ProjectStatus.draft) <$> projects db !! pid /\
    estimation_items db' = estimation_items db.
Proof.
  intros F E. rewrite processProjectFiles_run, E. cbv zeta.
  destruct (aggregate w _) as [[? ?] ?].
  destruct (filesOf pid db); [done|]. eexists. split; [reflexivity|].
  cbn [projects estimation_items]. rewrite !lookup_alter_eq.
  by destruct (projects db !! pid).
Qed.

Lemma processProjectFiles_normal w pid db db' r :
  processProjectFiles w pid db = (db', Normal r) ->
  filesOf pid db <> [] /\
  insertError w = None /\
  exists its total average,
    aggregate w (loopResult w pid db) = (its, total, average) /\
    r = mkResult total its (roundedAccuracy average) (processingTimeOf w) /\
    db' = mkDatabase
            (alter (setResults total (roundedAccuracy average) (processingTimeOf w)) pid
                   (alter (setStatus ProjectStatus.processing) pid (projects db)))
            (markAll w (filesOf pid db) (project_files db))
            (estimation_items db ++ List.map (itemRow pid) its).
Proof.
  rewrite processProjectFiles_run. cbv zeta.
  destruct (aggregate w _) as [[its total] average].
  destruct (filesOf pid db) as [|f files]; [discriminate|].
  destruct (insertError w); [discriminate|].
  intros [= <- <-]. split; [discriminate|]. split; [reflexivity|].
  by exists its, total, average.
Qed.

(** *** The aggregation *)

Lemma aggregate_total w acc its total average :
  aggregate w acc = (its, total, average) -> total = sumAmounts its.
Proof.
  unfold aggregate.
  destruct (useRealAI w && _); [destruct (_ =? _)%nat|]; by intros [= <- <- _].
Qed.

Lemma aggregate_items w acc its total average :
  aggregate w acc = (its, total, average) ->
  its = if useRealAI w && negb (List.length (flattenResults (allAnalysisResults acc)) =? 0)%nat
        then flattenResults (allAnalysisResults acc)
        else generateFallbackEstimation (fallbackDraws w).
Proof.
  unfold aggregate. destruct (useRealAI w); cbn [andb].
  - destruct (allAnalysisResults acc) as [|result results] eqn:R.
    + cbn. by intros [= <- _ _].
    + cbn [List.length Nat.ltb Nat.leb].
      destruct (_ =? _)%nat; by intros [= <- _ _].
  - by intros [= <- _ _].
Qed.

Lemma fold_step_results w files acc :
  allAnalysisResults (fold_left (step w) files acc) =
    (allAnalysisResults acc ++ collected w files)%list.
Proof.
  unfold collected. revert acc. induction files as [|f files IH]; intros acc.
  - cbn. destruct (useRealAI w); by rewrite app_nil_r.
  - cbn [fold_left]. rewrite IH. unfold step.
    destruct (useRealAI w); [|reflexivity].
    cbn [omap list_omap]. destruct (analysisOf w f) as [result|]; [|reflexivity].
    cbn [pushResult allAnalysisResults]. by rewrite <- app_assoc.
Qed.

Lemma loopResult_results w pid db :
  allAnalysisResults (loopResult w pid db) = collected w (filesOf pid db).
Proof. unfold loopResult. by rewrite fold_step_results. Qed.

(** *** Self-reported totals do not reach the result *)









(** *** Re-running the pipeline *)






(** *** A file whose analysis fails *)

Lemma analysisFails_statusAfter w f :
  analysisFails w f -> statusAfter w f = FileStatus.completed.
Proof.
  intros (fileData & Hd & _). unfold statusAfter. rewrite Hd. by destruct (useRealAI w).
Qed.

Lemma analysisFails_analysisOf w f :
  analysisFails w f -> analysisOf w f = None.
Proof.
  intros (fileData & Hd & [msg Hm]). unfold analysisOf. rewrite Hd. cbv zeta.
  rewrite Hm. by destruct (analysisResult _).
Qed.

Lemma markAll_markRow w files rows :
  markAll w files rows = List.map (markRow w files) rows.
Proof.
  revert rows. induction files as [|f files IH]; intros rows.
  - cbn. by rewrite List.map_id.
  - cbn [markAll fold_left]. fold (markAll w files (markFile (id f) (statusAfter w f) rows)).
    rewrite IH. unfold markFile. rewrite List.map_map. reflexivity.
Qed.

Lemma markRow_other w files row :
  Forall (fun f => id f <> id row) files -> markRow w files row = row.
Proof.
  induction 1 as [|f files Hf _ IH]; [reflexivity|].
  cbn [markRow fold_left]. destruct (String.eqb_spec (id row) (id f)); [congruence|].
  exact IH.
Qed.

Lemma markRow_hit w files f :
  NoDup (id <$> files) -> f ∈ files ->
  markRow w files f = set_processing_status (statusAfter w f) f.
Proof.
  induction files as [|g files IH]; intros Hnd Hin; [by apply elem_of_nil in Hin|].
  rewrite fmap_cons in Hnd. apply NoDup_cons in Hnd as [Hg Hnd].
  cbn [markRow fold_left].
  apply elem_of_cons in Hin as [->|Hin].
  - rewrite String.eqb_refl. apply markRow_other.
    apply Forall_forall. intros h Hh E. apply Hg.
    cbn [id set_processing_status] in E. rewrite <- E. by apply list_elem_of_fmap_2.
  - destruct (String.eqb_spec (id f) (id g)) as [E|_]; [|by apply IH].
    exfalso. apply Hg. rewrite <- E. by apply list_elem_of_fmap_2.
Qed.

Lemma filesOf_NoDup pid db :
  NoDup (id <$> project_files db) -> NoDup (id <$> filesOf pid db).
Proof.
  unfold filesOf. generalize (project_files db). intros rows.
  induction rows as [|row rows IH]; [done|].
  rewrite fmap_cons. intros [Hrow Hnd]%NoDup_cons. cbn [List.filter].
  destruct (String.eqb (project_id row) pid); [|by apply IH].
  rewrite fmap_cons. apply NoDup_cons. split; [|by apply IH].
  intros Hin. apply Hrow. apply list_elem_of_fmap in Hin as (g & -> & Hg).
  apply list_elem_of_fmap_2. apply list_elem_of_In in Hg.
  apply List.filter_In in Hg as [Hg _]. by apply list_elem_of_In.
Qed.

(** Where the file ids are distinct, a successful run leaves every file of
    the project with the status [statusAfter] gives it: [error] only when its
    download rejected, [completed] otherwise. *)
Lemma file_status_after_run w pid db db' r f :
  processProjectFiles w pid db = (db', Normal r) ->
  NoDup (id <$> project_files db) ->
  f ∈ filesOf pid db ->
  set_processing_status (statusAfter w f) f ∈ project_files db'.
Proof.
  intros Hrun Hnd Hf.
  apply processProjectFiles_normal in Hrun as (_ & _ & its & total & average & _ & _ & ->).
  cbn [project_files]. rewrite markAll_markRow.
  rewrite <- (markRow_hit w (filesOf pid db) f (filesOf_NoDup _ _ Hnd) Hf).
  apply list_elem_of_In, List.in_map.
  apply list_elem_of_In in Hf. apply List.filter_In in Hf as [Hf _]. exact Hf.
Qed.

(** So a file whose processing or analysis fails ends [completed]. *)
Lemma failed_analysis_ends_completed w pid db db' r f :
  processProjectFiles w pid db = (db', Normal r) ->
  NoDup (id <$> project_files db) ->
  f ∈ filesOf pid db ->
  analysisFails w f ->
  set_processing_status FileStatus.completed f ∈ project_files db'.
Proof.
  intros Hrun Hnd Hf Hfail.
  rewrite <- (analysisFails_statusAfter w f Hfail).
  by eapply file_status_after_run.
Qed.

(** C8 at a failing input: a project with two files, the analysis of
    [bad.pdf] being rejected by the provider and that of [good.pdf]
    succeeding.  The run completes the project from the one successful
    result, and leaves both files, the failed one included, with the
    processing status [completed]. *)
Theorem failed_file_is_marked_completed :
  analysisFails exampleWorld badFile /\
  analysisOf exampleWorld goodFile = Some brickwork /\
  exists db' r,
    processProjectFiles exampleWorld "p1" exampleDb = (db', Normal r) /\
    status <$> projects db' !! "p1" = Some ProjectStatus.completed /\
    items r = flattenResults [brickwork] /\
    project_files db' =
      [set_processing_status FileStatus.completed badFile;
       set_processing_status FileStatus.completed goodFile].
Proof.
  split; [|split].
  - exists "%PDF". split; [reflexivity|]. vm_compute. eauto.
  - reflexivity.
  - destruct (processProjectFiles exampleWorld "p1" exampleDb) as [db' [r|e]] eqn:Hrun;
      [|vm_compute in Hrun; discriminate].
    exists db', r. split; [reflexivity|].
    injection Hrun as <- <-. vm_compute. done.
Qed.
End PipelineFacts.

(** ** The fallback estimator *)

Module FallbackFacts.
Import JsNumber Supabase AiProviders Env DocumentProcessor AiProcessing Notions Examples.

(** *** Rounding *)

Lemma Math_floor_le x : Math_floor x <= x.
Proof. apply Qfloor_le. Qed.

Lemma Math_floor_lt x : x < Math_floor x + 1.
Proof.
  unfold Math_floor. pose proof (Qlt_floor x) as H.
  rewrite inject_Z_plus in H. exact H.
Qed.

Lemma Math_floor_ge (n : Z) x : inject_Z n <= x -> inject_Z n <= Math_floor x.
Proof.
  intros H. unfold Math_floor. rewrite <- Zle_Qle.
  rewrite <- (Qfloor_Z n). by apply Qfloor_resp_le.
Qed.

Lemma Math_round_near x : Qabs (Math_round x - x) <= 1 # 2.
Proof.
  unfold Math_round.
  pose proof (Math_floor_le (x + (1 # 2))) as Hle.
  pose proof (Math_floor_lt (x + (1 # 2))) as Hlt.
  unfold Math_floor in *. apply Qabs_case; intros ?; lra.
Qed.

Lemma round_to_cents_near x : Qabs (Math_round (x * 100) / 100 - x) <= 1 # 200.
Proof.
  pose proof (Math_round_near (x * 100)) as H.
  set (k := Math_round (x * 100)) in *.
  assert (E : k / 100 == k * (1 # 100)) by field. rewrite E.
  revert H. apply Qabs_case; intros ?; apply Qabs_case; intros ? ?; lra.
Qed.

(** *** The selection *)

Lemma catalog_baseRate : Forall (fun item => 1.2 <= baseRate item) catalog.
Proof. unfold catalog. repeat (constructor; [discriminate|]). constructor. Qed.

Lemma slice_bound r : isRandom r -> (8 <= 8 + Qfloor (r * 5) <= 12)%Z.
Proof.
  intros [H0 H1].
  assert (L : (0 <= Qfloor (r * 5))%Z).
  { apply (Qfloor_resp_le 0 (r * 5)). lra. }
  assert (U : (Qfloor (r * 5) < 5)%Z).
  { rewrite Zlt_Qlt. pose proof (Qfloor_le (r * 5)).
    change (inject_Z 5) with 5. lra. }
  lia.
Qed.

Lemma slice0_within {A} (l : list A) (e : Z) :
  (0 <= e <= Z.of_nat (List.length l))%Z -> slice0 l e = take (Z.to_nat e) l.
Proof.
  intros H. unfold slice0. cbv zeta.
  destruct (Z.ltb_spec e 0); [lia|]. by rewrite Z.min_l by lia.
Qed.

Lemma selected_length d :
  validDraws d ->
  List.length (slice0 (sorted d) (8 + Qfloor (slice_draw d * 5))) =
    Z.to_nat (8 + Qfloor (slice_draw d * 5)).
Proof.
  intros (HP & Hs & _). pose proof (slice_bound _ Hs).
  assert (L : List.length (sorted d) = 14%nat) by (by rewrite HP).
  rewrite slice0_within by (rewrite L; lia).
  rewrite length_take, L. lia.
Qed.

Lemma selected_lookup d i item :
  slice0 (sorted d) (8 + Qfloor (slice_draw d * 5)) !! i = Some item ->
  sorted d !! i = Some item.
Proof. unfold slice0. cbv zeta. intros H. by apply lookup_take_Some in H as []. Qed.

Lemma fallback_lookup d i it :
  generateFallbackEstimation d !! i = Some it ->
  exists item, sorted d !! i = Some item /\ it = fallbackItem d i item.
Proof.
  unfold generateFallbackEstimation. cbv zeta. rewrite list_lookup_imap.
  destruct (slice0 _ _ !! i) as [item|] eqn:E; [|discriminate].
  intros [= <-]. exists item. split; [by eapply selected_lookup|reflexivity].
Qed.

(** *** One item *)

Lemma quantity_positive d i item :
  isRandom (quantity_draw d i) -> 10 <= quantity (fallbackItem d i item).
Proof.
  intros [H0 _]. cbn [fallbackItem quantity].
  pose proof (Math_floor_ge 0 (quantity_draw d i * 200)) as H.
  change (inject_Z 0) with 0 in H. lra.
Qed.

Lemma jitteredRate_bound d i item :
  1.2 <= baseRate item -> isRandom (rate_draw d i) -> 0.96 <= jitteredRate d i item.
Proof. unfold jitteredRate. intros Hb [H0 H1]. nra. Qed.



Lemma exampleDraws_valid : validDraws exampleDraws.
Proof.
  unfold validDraws, isRandom. cbn.
  split; [reflexivity|]. repeat split; discriminate.
Qed.


(** C3, as stated, fails: with the catalogue in source order, quantity
    draws of 0.5 and rate draws of 0.0001, the first item carries quantity
    110 and rate 360.02, whose product rounds to 39602.20, while its amount
    is 39601.98. *)
Lemma fallback_amount_not_from_carried_rate :
  ~ (forall d, validDraws d ->
       Forall (fun it => amount it == Math_round (quantity it * rate it * 100) / 100)
              (generateFallbackEstimation d)).
Proof.
  intros H. specialize (H exampleDraws exampleDraws_valid).
  rewrite Forall_lookup in H. specialize (H 0%nat _ eq_refl).
  vm_compute in H. discriminate.
Qed.

(** C3, amended.  Every item of the fallback estimator comes from the
    catalogue entry at its position in the shuffled array; its rate field
    is the jittered rate rounded to 2 decimal places, and its amount is the
    product of its quantity and the jittered rate before rounding, rounded
    to 2 decimal places; hence the amount is within (|quantity| + 1)/200 of
    quantity times the carried rate. *)
Theorem fallback_amount_from_jittered_rate (d : FallbackDraws) (i : nat)
    (it : EstimationItem) :
  generateFallbackEstimation d !! i = Some it ->
  exists item,
    sorted d !! i = Some item /\
    quantity it = Math_floor (quantity_draw d i * 200) + 10 /\
    rate it = Math_round (jitteredRate d i item * 100) / 100 /\
    amount it = Math_round (quantity it * jitteredRate d i item * 100) / 100 /\
    Qabs (amount it - quantity it * rate it) <= (Qabs (quantity it) + 1) * (1 # 200).
Proof.
  intros Hit. apply fallback_lookup in Hit as (item & Hitem & ->).
  exists item. split; [exact Hitem|].
  cbn [fallbackItem quantity rate amount]. fold (jitteredRate d i item).
  set (q := Math_floor (quantity_draw d i * 200) + 10).
  set (j := jitteredRate d i item).
  do 3 (split; [reflexivity|]).
  pose proof (round_to_cents_near (q * j)) as Ha.
  pose proof (round_to_cents_near j) as Hr.
  set (a := Math_round (q * j * 100) / 100) in *.
  set (r := Math_round (j * 100) / 100) in *.
  assert (E : a - q * r == (a - q * j) - q * (r - j)) by ring.
  rewrite E.
  eapply Qle_trans; [apply Qabs_triangle|].
  rewrite Qabs_opp, Qabs_Qmult.
  pose proof (Qabs_nonneg q).
  set (x := Qabs (r - j)) in *. set (y := Qabs q) in *.
  assert (y * x <= y * (1 # 200)) by nra.
  lra.
Qed.

Lemma fallback_amount_from_jittered_rate_witness :
  exists it item,
    generateFallbackEstimation exampleDraws !! 0%nat = Some it /\
    sorted exampleDraws !! 0%nat = Some item /\
    amount it = Math_round (quantity it * jitteredRate exampleDraws 0 item * 100) / 100.
Proof.
  destruct (fallback_amount_from_jittered_rate exampleDraws 0 _ eq_refl)
    as (item & H1 & _ & _ & H2 & _).
  eexists _, item. split; [reflexivity|]. split; [exact H1|exact H2].
Defined.
End FallbackFacts.

(** ** Currency conversion as an operation on amounts *)

Module CurrencyAlgebra.
Import MoreNotions MoreExamples.
Import JsNumber Localization Notions LocalizationFacts.



(** X2.  Conversion is linear in the amount: a weighted sum of amounts
    converts to the weighted sum of the converted amounts, so the converted
    total of a list of items is the total of the converted items. *)
Theorem convertCurrency_linear (a b x y : Q) (A B : string) :
  convertCurrency (a * x + b * y) A B ==
    a * convertCurrency x A B + b * convertCurrency y A B.
Proof.
  pose proof (or_default_one_nonzero (EXCHANGE_RATES !! A)).
  unfold convertCurrency. destruct (String.eqb A B); [reflexivity|].
  cbv zeta. field. auto.
Qed.



End CurrencyAlgebra.

(** ** Unit conversion outside its table *)

Module UnitFacts.
Import MoreNotions MoreExamples.
Import JsNumber Localization Notions LocalizationFacts.




(** The factors of a pair are not exact inverses: for each of the
    eight pairs, converting a non-zero value forth and back never returns
    exactly that value. *)
Lemma convertUnits_round_trip_drifts (v : Q) (U V : string) :
  (U, V) ∈ supportedUnitPairs ->
  ~ v == 0 ->
  ~ convertUnits (convertUnits v U V) V U == v.
Proof.
  unfold supportedUnitPairs. intros H Hv E. apply Hv. clear Hv. revert E.
  repeat (apply elem_of_cons in H as [[= -> ->]|H]).
  - unit_factor 0.0929. unit_factor 10.764. intros E. lra.
  - unit_factor 10.764. unit_factor 0.0929. intros E. lra.
  - unit_factor 0.0283. unit_factor 35.314. intros E. lra.
  - unit_factor 35.314. unit_factor 0.0283. intros E. lra.
  - unit_factor 0.305. unit_factor 3.281. intros E. lra.
  - unit_factor 3.281. unit_factor 0.305. intros E. lra.
  - unit_factor 0.454. unit_factor 2.205. intros E. lra.
  - unit_factor 2.205. unit_factor 0.454. intros E. lra.
  - by apply elem_of_nil in H.
Qed.

Lemma convertUnits_round_trip_drifts_witness :
  ~ convertUnits (convertUnits 100 "m" "ft") "ft" "m" == 100.
Proof.
  apply (convertUnits_round_trip_drifts 100 "m" "ft").
  - unfold supportedUnitPairs. set_solver.
  - discriminate.
Defined.

End UnitFacts.

(** ** The country registry and the service state *)

Module RegistryFacts.
Import MoreNotions MoreExamples.
Import JsNumber Localization LocalizationService Notions LocalizationFacts.

Lemma unitedKingdom_listed : unitedKingdom ∈ COUNTRIES.
Proof. unfold COUNTRIES. set_solver. Qed.

Lemma japan_listed : japan ∈ COUNTRIES.
Proof. unfold COUNTRIES. set_solver. Qed.

Ltac each_country H :=
  unfold COUNTRIES in H;
  repeat (apply elem_of_cons in H as [->|H]); [..|by apply elem_of_nil in H].

(** X5.  A [navigator.language] equal to the locale of a registry entry
    resolves to that entry whatever the time zone is: the locale match comes
    first and the locales of the registry are pairwise distinct. *)
Theorem detectUserCountry_locale_wins (c : CountryConfig) (timeZone : string) :
  c ∈ COUNTRIES -> detectUserCountry (locale c) timeZone = Some c.
Proof. intros H. each_country H; reflexivity. Qed.

Lemma detectUserCountry_locale_wins_witness :
  detectUserCountry "en-GB" "Asia/Tokyo" = Some unitedKingdom.
Proof. exact (detectUserCountry_locale_wins unitedKingdom "Asia/Tokyo" unitedKingdom_listed). Defined.

(** X6.  When no registry entry has the browser's locale, the time zone of
    a registry entry resolves to that entry: the time zones of the registry
    are pairwise distinct and are tried before the language prefix. *)
Theorem detectUserCountry_timezone_second (navigator_language : string)
    (c : CountryConfig) :
  c ∈ COUNTRIES ->
  List.find (fun c' => String.eqb (locale c') (language_or_default navigator_language))
            COUNTRIES = None ->
  detectUserCountry navigator_language (timezone c) = Some c.
Proof.
  intros H E. unfold detectUserCountry. cbv zeta. rewrite E.
  each_country H; reflexivity.
Qed.

Lemma detectUserCountry_timezone_second_witness :
  detectUserCountry "ja-JP" "Asia/Tokyo" = Some japan.
Proof.
  apply (detectUserCountry_timezone_second "ja-JP" japan japan_listed). reflexivity.
Defined.

(** X7.  After [setCountry] with the code of a registry entry,
    [getCurrentCountry] returns that entry, and the code is what
    [localStorage] holds: the codes of the registry are pairwise distinct. *)
Theorem setCountry_then_getCurrentCountry (c : CountryConfig) (s : Service) :
  c ∈ COUNTRIES ->
  getCurrentCountry (setCountry (code c) s) = (c, mkService c (Some (code c))).
Proof. intros H. each_country H; reflexivity. Qed.

Lemma setCountry_then_getCurrentCountry_witness :
  getCurrentCountry (setCountry "JP" (mkService unitedKingdom None)) =
    (japan, mkService japan (Some "JP")).
Proof.
  exact (setCountry_then_getCurrentCountry japan (mkService unitedKingdom None) japan_listed).
Defined.

Lemma find_code_None k :
  (forall c, c ∈ COUNTRIES -> code c <> k) ->
  List.find (fun c => String.eqb (code c) k) COUNTRIES = None.
Proof.
  intros H. destruct (List.find _ COUNTRIES) as [c|] eqn:E; [|reflexivity].
  apply find_some in E as [Hin Heq]. apply String.eqb_eq in Heq.
  by apply list_elem_of_In, H in Hin.
Qed.

(** X8.  A code that names no registry entry changes nothing: [setCountry]
    leaves the service as it was (nothing is written to [localStorage]), and
    [getCurrentCountry] ignores such a code, or an empty one, when it finds
    it stored. *)
Theorem unknown_country_code_ignored (k : string) (s : Service) :
  (forall c, c ∈ COUNTRIES -> code c <> k) ->
  setCountry k s = s /\
  getCurrentCountry (mkService (currentCountry s) (Some k)) =
    (currentCountry s, mkService (currentCountry s) (Some k)) /\
  getCurrentCountry (mkService (currentCountry s) (Some "")) =
    (currentCountry s, mkService (currentCountry s) (Some "")).
Proof.
  intros H. pose proof (find_code_None k H) as E.
  unfold setCountry, getCurrentCountry. cbn [selectedCountry currentCountry].
  rewrite E. split; [reflexivity|]. split; [|reflexivity].
  by destruct (String.eqb k "").
Qed.

Lemma unknown_country_code_ignored_witness :
  setCountry "ZZ" (mkService japan None) = mkService japan None.
Proof.
  apply (unknown_country_code_ignored "ZZ" (mkService japan None)).
  intros c H. each_country H; discriminate.
Defined.

(** X9.  For the currency of any registry entry, [getCurrencySymbol]
    returns that entry's symbol (the entries that share a currency agree on
    its symbol); for a non-empty code that is the currency of no entry it
    returns the code itself. *)
Theorem getCurrencySymbol_registry (s : Service) (k : string) :
  (forall c, c ∈ COUNTRIES -> currency c = k ->
     getCurrencySymbol s (Some k) = currencySymbol c) /\
  (k <> "" -> (forall c, c ∈ COUNTRIES -> currency c <> k) ->
     getCurrencySymbol s (Some k) = k).
Proof.
  split.
  - intros c H <-. each_country H; reflexivity.
  - intros Hk H. unfold getCurrencySymbol.
    destruct (String.eqb_spec k ""); [done|].
    destruct (List.find _ COUNTRIES) as [c|] eqn:E; [|reflexivity].
    apply find_some in E as [Hin Heq]. apply String.eqb_eq in Heq.
    by apply list_elem_of_In, H in Hin.
Qed.

Lemma getCurrencySymbol_registry_witness :
  getCurrencySymbol (mkService japan None) (Some "GBP") = "£" /\
  getCurrencySymbol (mkService japan None) (Some "XYZ") = "XYZ".
Proof.
  destruct (getCurrencySymbol_registry (mkService japan None) "GBP") as [H1 _].
  destruct (getCurrencySymbol_registry (mkService japan None) "XYZ") as [_ H2].
  split.
  - exact (H1 unitedKingdom unitedKingdom_listed eq_refl).
  - apply H2; [discriminate|]. intros c H. each_country H; discriminate.
Defined.

End RegistryFacts.

(** ** Regional factors and displayed items *)

Module DisplayFacts.
Import MoreNotions MoreExamples.
Import JsNumber Localization LocalizationService EstimationResults AiProcessing.
Import Notions LocalizationFacts RegistryFacts.

Lemma factors_keys : NoDup factors_entries.*1.
Proof. apply (bool_decide_unpack _). vm_compute. reflexivity. Qed.

Lemma factors_entry_ok :
  Forall (fun entry =>
            entry.2.*1 = costCategories /\ Forall (fun p => 0 < p.2) entry.2)
         factors_entries.
Proof.
  unfold factors_entries.
  repeat (constructor;
          [split; [reflexivity|repeat (constructor; [exact eq_refl|]); constructor]|]).
  constructor.
Qed.

Lemma factors_lookup k f :
  factors !! k = Some f ->
  exists l, (k, l) ∈ factors_entries /\ f = list_to_map l.
Proof.
  intros H. apply elem_of_list_to_map_2, list_elem_of_fmap in H as ([k' l] & [= -> ->] & Hin).
  by exists l.
Qed.

(** X10.  [getRegionalCostFactors] is defined for every current country: it
    returns a table with a strictly positive multiplier for each of the nine
    cost categories and for no other key; for a country without an entry of
    its own, every multiplier is 1. *)
Theorem getRegionalCostFactors_total (s : Service) :
  exists f,
    getRegionalCostFactors s = Some f /\
    (forall cat, is_Some (f !! cat) <-> cat ∈ costCategories) /\
    (forall cat k, f !! cat = Some k -> 0 < k) /\
    (factors !! code (currentCountry s) = None -> f = unitFactors).
Proof.
  unfold getRegionalCostFactors.
  assert (ok : forall k f, factors !! k = Some f ->
             (forall cat, is_Some (f !! cat) <-> cat ∈ costCategories) /\
             (forall cat r, f !! cat = Some r -> 0 < r)).
  { intros k f Hf. apply factors_lookup in Hf as (l & Hin & ->).
    pose proof factors_entry_ok as F. rewrite Forall_forall in F.
    destruct (F _ Hin) as [Hkeys Hpos]. cbn [snd] in *. split.
    - intros cat. rewrite <- Hkeys, <- elem_of_dom.
      rewrite dom_list_to_map_L. apply elem_of_list_to_set.
    - intros cat r Hr. apply elem_of_list_to_map_2 in Hr.
      rewrite Forall_forall in Hpos. exact (Hpos _ Hr). }
  destruct (factors !! code (currentCountry s)) as [f|] eqn:E.
  - exists f. destruct (ok _ _ E) as [H1 H2].
    split; [reflexivity|]. split; [exact H1|]. split; [exact H2|discriminate].
  - assert (U : factors !! "US" = Some unitFactors) by (vm_compute; reflexivity).
    exists unitFactors. destruct (ok _ _ U) as [H1 H2]. rewrite U.
    split; [reflexivity|]. split; [exact H1|]. split; [exact H2|done].
Qed.

(** X11.  The amount of a displayed item is the stored quantity times the
    stored rate times the regional factor of its category: the conversion
    between square feet and square metres changes the displayed quantity and
    rate but cancels in their product, and the stored amount is not read. *)
Theorem convertUnitsForDisplay_amount (toLowerCase : string -> string) (s : Service)
    (costFactors : gmap string Q) (item : EstimationItem) :
  let shown := convertUnitsForDisplay toLowerCase s costFactors item in
  amount shown = quantity shown * rate shown /\
  amount shown ==
    quantity item * rate item * categoryFactorOf toLowerCase costFactors item /\
  (forall stored,
     convertUnitsForDisplay toLowerCase s costFactors
       (mkItem (category item) (description item) (quantity item) (unit_ item)
               (rate item) stored) = shown).
Proof.
  cbv zeta. unfold convertUnitsForDisplay, categoryFactorOf.
  cbn [category description quantity unit_ rate].
  set (factor := or_default _ _).
  split; [|split].
  - destruct (getMeasurementSystem s); destruct (String.eqb _ _); reflexivity.
  - destruct (getMeasurementSystem s); destruct (String.eqb _ _); cbn [amount];
      try ring.
    + rewrite !(convertUnits_factor _ "sq ft" "m²" 0.0929) by (vm_compute; reflexivity).
      field.
    + rewrite !(convertUnits_factor _ "m²" "sq ft" 10.764) by (vm_compute; reflexivity).
      field.
  - reflexivity.
Qed.







End DisplayFacts.

(** ** Outcomes of a run *)

Module RunFacts.
Import MoreNotions MoreExamples.
Import JsNumber Supabase Supabase.Notations AiProviders Env DocumentProcessor.
Import AiProcessing UseProjects Notions Examples PipelineFacts.

Lemma revert_to_draft pid (m : gmap string ProjectRow) :
  alter (setStatus ProjectStatus.draft) pid
        (alter (setStatus ProjectStatus.processing) pid m) =
    alter (setStatus ProjectStatus.draft) pid m.
Proof.
  rewrite alter_alter_eq. apply alter_ext. by intros [].
Qed.

(** X13.  A project without file records cannot be processed: the run
    throws ['No files found for processing'], the project (if it exists) is
    left in [draft], and neither [project_files] nor [estimation_items] is
    written. *)
Theorem run_without_files (w : World) (projectId : string) (db : Database) :
  filesOf projectId db = [] ->
  processProjectFiles w projectId db =
    (mkDatabase (alter (setStatus ProjectStatus.draft) projectId (projects db))
                (project_files db) (estimation_items db),
     Throw "No files found for processing").
Proof.
  intros F. rewrite processProjectFiles_run, F. cbv zeta.
  destruct (aggregate w _) as [[? ?] ?]. by rewrite revert_to_draft.
Qed.

Lemma run_without_files_witness :
  (processProjectFiles exampleWorld "p2" exampleDb).2 =
    Throw "No files found for processing".
Proof. by rewrite (run_without_files exampleWorld "p2" exampleDb eq_refl). Defined.

(** X14.  When the insert into [estimation_items] reports an error, the run
    throws that error, the project (if it exists) is left in [draft] and no
    item is written; the file records keep the status the loop gave them. *)
Theorem run_with_insert_error (w : World) (projectId : string) (db : Database)
    (e : string) :
  filesOf projectId db <> [] ->
  insertError w = Some e ->
  processProjectFiles w projectId db =
    (mkDatabase (alter (setStatus ProjectStatus.draft) projectId (projects db))
                (markAll w (filesOf projectId db) (project_files db))
                (estimation_items db),
     Throw e).
Proof.
  intros F E. rewrite processProjectFiles_run, E. cbv zeta.
  destruct (aggregate w _) as [[? ?] ?].
  destruct (filesOf projectId db); [done|]. by rewrite revert_to_draft.
Qed.

Lemma run_with_insert_error_witness :
  exists db',
    processProjectFiles rejectingInsertWorld "p1" exampleDb =
      (db', Throw "permission denied") /\
    estimation_items db' = [] /\
    status <$> projects db' !! "p1" = Some ProjectStatus.draft.
Proof.
  eexists. split.
  - apply (run_with_insert_error rejectingInsertWorld "p1" exampleDb "permission denied").
    + vm_compute. discriminate.
    + reflexivity.
  - split; [reflexivity|]. vm_compute. reflexivity.
Defined.



(** X16.  Where the file ids are distinct, a run that returns leaves each
    file record of the project with the status [error] if AI is configured
    and the download of the file rejected, and with [completed] in every
    other case, the rest of the record being unchanged. *)
Theorem run_file_status (w : World) (projectId : string) (db db' : Database)
    (r : ProcessingResult) (f : FileRow) :
  processProjectFiles w projectId db = (db', Normal r) ->
  NoDup (id <$> project_files db) ->
  f ∈ filesOf projectId db ->
  exists st,
    set_processing_status st f ∈ project_files db' /\
    (st = FileStatus.error \/ st = FileStatus.completed) /\
    (st = FileStatus.error <->
       useRealAI w = true /\ exists e, download w (file_url f) = Throw e).
Proof.
  intros Hrun Hnd Hf. exists (statusAfter w f).
  split; [by eapply file_status_after_run|].
  unfold statusAfter. destruct (useRealAI w).
  - destruct (download w (file_url f)) as [o|e].
    + split; [by right|]. split; [discriminate|]. by intros [_ [e' ?]].
    + split; [by left|]. split; [eauto|done].
  - split; [by right|]. split; [discriminate|]. by intros [? _].
Qed.

Lemma run_file_status_witness :
  exists db' r,
    processProjectFiles exampleWorld "p1" exampleDb = (db', Normal r) /\
    set_processing_status FileStatus.completed goodFile ∈ project_files db'.
Proof.
  destruct (processProjectFiles exampleWorld "p1" exampleDb) as [db' [r|e]] eqn:Hrun;
    [|vm_compute in Hrun; discriminate].
  exists db', r. split; [reflexivity|].
  destruct (run_file_status _ _ _ _ _ goodFile Hrun) as (st & Hin & [->| ->] & Hst).
  - apply (bool_decide_unpack _). vm_compute. reflexivity.
  - unfold filesOf. cbn. set_solver.
  - exfalso. destruct (proj1 Hst eq_refl) as [_ [e He]]. discriminate.
  - exact Hin.
Defined.

(** *** What a run leaves alone *)

Lemma markRow_project_id w files row : project_id (markRow w files row) = project_id row.
Proof.
  revert row. induction files as [|f files IH]; intros row; [reflexivity|].
  cbn [markRow fold_left]. destruct (String.eqb (id row) (id f)); exact (IH _).
Qed.

Lemma markRow_foreign w pid rows row :
  NoDup (id <$> rows) ->
  row ∈ rows ->
  project_id row <> pid ->
  markRow w (List.filter (fun f => String.eqb (project_id f) pid) rows) row = row.
Proof.
  intros Hnd Hrow Hpid. apply markRow_other, Forall_forall. intros f Hf E.
  apply list_elem_of_In, List.filter_In in Hf as [Hf Hp].
  apply String.eqb_eq in Hp. apply list_elem_of_In in Hf.
  apply list_elem_of_lookup in Hf as [i Hi]. apply list_elem_of_lookup in Hrow as [j Hj].
  assert (i = j).
  { eapply NoDup_lookup; [exact Hnd|..]; rewrite list_lookup_fmap.
    - by rewrite Hi.
    - rewrite Hj. cbn. by rewrite E. }
  subst j. congruence.
Qed.

Lemma filter_map_frame (p : FileRow -> bool) (g : FileRow -> FileRow) rows :
  (forall row, row ∈ rows -> p (g row) = p row /\ (p row = true -> g row = row)) ->
  List.filter p (List.map g rows) = List.filter p rows.
Proof.
  induction rows as [|row rows IH]; intros H; [reflexivity|].
  cbn [List.map List.filter].
  destruct (H row) as [H1 H2]; [apply list_elem_of_here|]. rewrite H1.
  rewrite IH by (intros row' Hin; apply H, list_elem_of_further, Hin).
  destruct (p row) eqn:P; [|reflexivity]. by rewrite H2.
Qed.

(** X17.  A run on one project, whether it returns or throws, leaves every
    other project alone: its row in [projects], its estimation items and,
    where the file ids are distinct, its file records are what they were. *)
Theorem run_leaves_other_projects (w : World) (projectId other : string)
    (db db' : Database) (outcome : Completion ProcessingResult) :
  processProjectFiles w projectId db = (db', outcome) ->
  other <> projectId ->
  projects db' !! other = projects db !! other /\
  getProjectEstimation other db' = getProjectEstimation other db /\
  (NoDup (id <$> project_files db) -> filesOf other db' = filesOf other db).
Proof.
  rewrite processProjectFiles_run. cbv zeta.
  destruct (aggregate w _) as [[its total] average].
  intros Hrun Hne.
  assert (Hfiles : NoDup (id <$> project_files db) ->
            List.filter (fun f => String.eqb (project_id f) other)
                        (markAll w (filesOf projectId db) (project_files db)) =
            filesOf other db).
  { intros Hnd. rewrite markAll_markRow. unfold filesOf at 2.
    apply filter_map_frame. intros row Hrow. rewrite markRow_project_id.
    split; [reflexivity|]. intros Hp. apply String.eqb_eq in Hp.
    apply markRow_foreign; [done..|congruence]. }
  assert (Hitems : forall rows,
            List.filter (fun row => String.eqb (item_project_id row) other)
                        (List.map (itemRow projectId) rows) = []).
  { induction rows as [|row rows IH]; [reflexivity|]. cbn.
    destruct (String.eqb_spec projectId other); [congruence|exact IH]. }
  destruct (filesOf projectId db) eqn:F; [|destruct (insertError w)];
    injection Hrun as <- <-; unfold getProjectEstimation, filesOf;
    cbn [projects project_files estimation_items];
    rewrite ?lookup_alter_ne by done; repeat split; try done.
  unfold getProjectEstimation. by rewrite List.filter_app, Hitems, app_nil_r.
Qed.

Lemma run_leaves_other_projects_witness :
  projects (processProjectFiles exampleWorld "p1" exampleDb).1 !! "p2" =
    projects exampleDb !! "p2".
Proof.
  destruct (processProjectFiles exampleWorld "p1" exampleDb) as [db' outcome] eqn:Hrun.
  apply (run_leaves_other_projects _ _ "p2" _ _ _ Hrun). discriminate.
Defined.

End RunFacts.

(** ** The reported accuracy *)

Module AccuracyFacts.
Import MoreNotions MoreExamples.
Import JsNumber Supabase Supabase.Notations AiProviders Env DocumentProcessor.
Import AiProcessing UseProjects Notions Examples PipelineFacts FallbackFacts.

Lemma fold_step_accuracy w files acc :
  averageAccuracy (fold_left (step w) files acc) =
    fold_left (fun sum result => sum + AiProviders.accuracy result)
              (collected w files) (averageAccuracy acc).
Proof.
  unfold collected. revert acc. induction files as [|f files IH]; intros acc.
  - cbn. by destruct (useRealAI w).
  - cbn [fold_left]. rewrite IH. unfold step.
    destruct (useRealAI w); [|reflexivity].
    cbn [omap list_omap]. by destruct (analysisOf w f).
Qed.

Lemma roundedAccuracy_bounds (lo hi : Z) x :
  inject_Z lo <= x -> x <= inject_Z hi ->
  inject_Z lo <= roundedAccuracy x /\ roundedAccuracy x <= inject_Z hi.
Proof.
  intros Hlo Hhi. unfold roundedAccuracy, Math_round.
  pose proof (Math_floor_ge (lo * 10) (x * 10 + (1 # 2))) as L.
  assert (U : Math_floor (x * 10 + (1 # 2)) <= inject_Z (hi * 10)).
  { unfold Math_floor. rewrite <- Zle_Qle.
    assert (Qfloor (x * 10 + (1 # 2)) < hi * 10 + 1)%Z; [|lia].
    rewrite Zlt_Qlt. pose proof (Qfloor_le (x * 10 + (1 # 2))).
    rewrite inject_Z_plus, inject_Z_mult. change (inject_Z 10) with 10.
    change (inject_Z 1) with 1. lra. }
  unfold Math_floor in *. rewrite inject_Z_mult in L, U.
  change (inject_Z 10) with 10 in *.
  set (k := inject_Z (Qfloor _)) in *.
  assert (E : k / 10 == k * (1 # 10)) by field. rewrite E. split; lra.
Qed.

(** X18.  A run without a configured AI provider reports an accuracy
    between 92 and 98, whatever the random draw. *)
Theorem accuracy_without_ai (w : World) (projectId : string) (db db' : Database)
    (r : ProcessingResult) :
  processProjectFiles w projectId db = (db', Normal r) ->
  useRealAI w = false ->
  isRandom (accuracyDraw w) ->
  92 <= accuracy r /\ accuracy r <= 98 /\
  Supabase.accuracy <$> projects db' !! projectId =
    (fun _ => accuracy r) <$> projects db !! projectId.
Proof.
  intros Hrun Hai [H0 H1].
  apply processProjectFiles_normal in Hrun
    as (_ & _ & its & total & average & Hagg & -> & ->).
  unfold aggregate in Hagg. rewrite Hai in Hagg. cbn [andb] in Hagg.
  injection Hagg as _ _ <-. cbn [accuracy projects].
  destruct (roundedAccuracy_bounds 92 98 (92 + accuracyDraw w * 6)) as [L U].
  - change (inject_Z 92) with 92. lra.
  - change (inject_Z 98) with 98. lra.
  - split; [exact L|]. split; [exact U|].
    rewrite !lookup_alter_eq. by destruct (projects db !! projectId).
Qed.

Lemma accuracy_without_ai_witness :
  exists db' r,
    processProjectFiles simulationWorld "p1" exampleDb = (db', Normal r) /\
    92 <= accuracy r /\ accuracy r <= 98.
Proof.
  destruct (processProjectFiles simulationWorld "p1" exampleDb) as [db' [r|e]] eqn:Hrun;
    [|vm_compute in Hrun; discriminate].
  exists db', r. split; [reflexivity|].
  destruct (accuracy_without_ai _ _ _ _ _ Hrun) as (L & U & _).
  - reflexivity.
  - split; [discriminate|exact eq_refl].
  - by split.
Defined.

(** X19.  When analysis results were collected and they contain items, the
    reported accuracy is the mean of the accuracies of the collected
    results, rounded to one decimal: a file without a usable result counts
    neither in the sum nor in the divisor.  When they contain no item, the
    reported accuracy is 85. *)
Theorem accuracy_with_ai (w : World) (projectId : string) (db db' : Database)
    (r : ProcessingResult) :
  processProjectFiles w projectId db = (db', Normal r) ->
  let results := collected w (filesOf projectId db) in
  results <> [] ->
  accuracy r =
    if (List.length (flattenResults results) =? 0)%nat
    then roundedAccuracy 85
    else roundedAccuracy
           (sumAccuracy results / inject_Z (Z.of_nat (List.length results))).
Proof.
  intros Hrun results Hne.
  assert (Hai : useRealAI w = true).
  { subst results. unfold collected in Hne. by destruct (useRealAI w). }
  apply processProjectFiles_normal in Hrun
    as (_ & _ & its & total & average & Hagg & -> & _).
  cbn [accuracy]. unfold aggregate in Hagg.
  rewrite Hai, loopResult_results in Hagg. fold results in Hagg.
  destruct results as [|result results'] eqn:R; [done|].
  cbn [andb List.length Nat.ltb Nat.leb] in Hagg.
  destruct (_ =? 0)%nat.
  - by injection Hagg as _ _ <-.
  - injection Hagg as _ _ <-. f_equal. f_equal.
    unfold loopResult. rewrite fold_step_accuracy. fold results. by rewrite R.
Qed.

Lemma accuracy_with_ai_witness :
  exists db' r,
    processProjectFiles exampleWorld "p1" exampleDb = (db', Normal r) /\
    accuracy r == 90.
Proof.
  destruct (processProjectFiles exampleWorld "p1" exampleDb) as [db' [r|e]] eqn:Hrun;
    [|vm_compute in Hrun; discriminate].
  exists db', r. split; [reflexivity|].
  rewrite (accuracy_with_ai _ _ _ _ _ Hrun) by (vm_compute; discriminate).
  vm_compute. reflexivity.
Defined.

End AccuracyFacts.

(** ** Ranges of the fallback estimate *)

Module FallbackRanges.
Import MoreNotions MoreExamples.
Import JsNumber Supabase Supabase.Notations AiProviders Env DocumentProcessor.
Import AiProcessing UseProjects Notions Examples PipelineFacts FallbackFacts.

Lemma sorted_in_catalog d i item :
  validDraws d -> sorted d !! i = Some item -> item ∈ catalog.
Proof.
  intros (HP & _) H. rewrite <- HP. by eapply list_elem_of_lookup_2.
Qed.

(** X20.  Every item of the fallback estimator copies the category,
    description and unit of a catalogue entry; its quantity is a whole number
    between 10 and 209; and its rate is within 20% of the entry's base rate,
    up to the half cent of rounding. *)
Theorem fallback_item_ranges (d : FallbackDraws) (i : nat) (it : EstimationItem) :
  validDraws d ->
  generateFallbackEstimation d !! i = Some it ->
  exists item,
    item ∈ catalog /\
    category it = Env.category item /\
    description it = Env.description item /\
    unit_ it = Env.unit_ item /\
    (exists n : Z, (10 <= n <= 209)%Z /\ quantity it == inject_Z n) /\
    Qabs (rate it - baseRate item) <= (2 # 10) * baseRate item + (1 # 200).
Proof.
  intros V Hit. apply fallback_lookup in Hit as (item & Hitem & ->).
  pose proof (sorted_in_catalog d i item V Hitem) as Hin.
  exists item. split; [exact Hin|]. do 3 (split; [reflexivity|]).
  destruct V as (_ & _ & Hq & Hr). split.
  - exists (Qfloor (quantity_draw d i * 200) + 10)%Z. split.
    + destruct (Hq i) as [H0 H1].
      assert (0 <= Qfloor (quantity_draw d i * 200))%Z
        by (apply (Qfloor_resp_le 0); lra).
      assert (Qfloor (quantity_draw d i * 200) < 200)%Z.
      { rewrite Zlt_Qlt. pose proof (Qfloor_le (quantity_draw d i * 200)).
        change (inject_Z 200) with 200. lra. }
      lia.
    + cbn [fallbackItem quantity]. unfold Math_floor.
      rewrite inject_Z_plus. reflexivity.
  - cbn [fallbackItem rate]. fold (jitteredRate d i item).
    pose proof (round_to_cents_near (jitteredRate d i item)) as R.
    assert (Hb : 0 < baseRate item).
    { pose proof catalog_baseRate as F. rewrite Forall_forall in F.
      pose proof (F _ Hin). cbv beta in *. lra. }
    destruct (Hr i) as [H0 H1].
    assert (J : Qabs (jitteredRate d i item - baseRate item) <= (2 # 10) * baseRate item).
    { unfold jitteredRate. apply Qabs_case; intros _; nra. }
    set (j := jitteredRate d i item) in *.
    set (x := Math_round (j * 100) / 100) in *.
    assert (E : x - baseRate item == (x - j) + (j - baseRate item)) by ring.
    rewrite E. eapply Qle_trans; [apply Qabs_triangle|]. lra.
Qed.

Lemma fallback_item_ranges_witness :
  exists it n,
    generateFallbackEstimation exampleDraws !! 2%nat = Some it /\
    (10 <= n <= 209)%Z /\ quantity it == inject_Z n /\
    description it = "Reinforcement Bars".
Proof.
  destruct (fallback_item_ranges exampleDraws 2 _ exampleDraws_valid eq_refl)
    as (item & _ & _ & _ & _ & (n & Hn & Hq) & _).
  eexists _, n. split; [reflexivity|]. split; [exact Hn|]. split; [exact Hq|reflexivity].
Defined.

Lemma imap_description d l :
  description <$> imap (fallbackItem d) l = Env.description <$> l.
Proof.
  apply list_eq. intros i.
  rewrite !list_lookup_fmap, list_lookup_imap. by destruct (l !! i).
Qed.

Lemma catalog_descriptions : NoDup (Env.description <$> catalog).
Proof. apply (bool_decide_unpack _). vm_compute. reflexivity. Qed.

(** X21.  The fallback estimator never lists a catalogue entry twice: the
    descriptions of the returned items are pairwise distinct. *)
Theorem fallback_items_distinct (d : FallbackDraws) :
  validDraws d -> NoDup (description <$> generateFallbackEstimation d).
Proof.
  intros (HP & _). unfold generateFallbackEstimation, slice0. cbv zeta.
  rewrite imap_description.
  apply (sublist_NoDup _ (Env.description <$> sorted d)).
  - rewrite HP. exact catalog_descriptions.
  - apply fmap_sublist, sublist_take.
Qed.

Lemma fallback_items_distinct_witness :
  NoDup (description <$> generateFallbackEstimation exampleDraws).
Proof. exact (fallback_items_distinct exampleDraws exampleDraws_valid). Defined.

Lemma sumAmounts_positive its :
  its <> [] -> Forall (fun it => 0 < amount it) its -> 0 < sumAmounts its.
Proof.
  unfold sumAmounts. intros Hne H.
  assert (G : forall l, Forall (fun it => 0 < amount it) l ->
            forall a, 0 < a -> 0 < fold_left (fun sum item => sum + amount item) l a).
  { induction 1 as [|it l Hit _ IH]; intros a Ha; [exact Ha|].
    cbn [fold_left]. apply IH. lra. }
  destruct H as [|it its Hit H]; [done|].
  cbn [fold_left]. apply (G _ H). lra.
Qed.

Lemma amount_positive d i item :
  1.2 <= baseRate item -> isRandom (quantity_draw d i) -> isRandom (rate_draw d i) ->
  0 < amount (fallbackItem d i item).
Proof.
  intros Hb Hq Hr. cbn [fallbackItem amount]. fold (jitteredRate d i item).
  pose proof (jitteredRate_bound d i item Hb Hr) as J.
  pose proof (quantity_positive d i item Hq) as Q. cbn [fallbackItem quantity] in Q.
  set (q := Math_floor _ + 10) in *. set (j := jitteredRate d i item) in *.
  unfold Math_round.
  pose proof (Math_floor_ge 1 (q * j * 100 + (1 # 2))) as H.
  unfold Math_floor in H. change (inject_Z 1) with 1 in H.
  set (k := inject_Z _) in *.
  assert (E : k / 100 == k * (1 # 100)) by field. rewrite E.
  assert (1 <= k); [apply H; nra|lra].
Qed.

(** X22.  Whenever no item comes out of the analysis results (no AI
    configured, no usable result, or results without items), a run that
    returns gives the fallback estimate, and its total cost, returned and
    written to the project, is strictly positive. *)
Theorem fallback_run_total_positive (w : World) (projectId : string)
    (db db' : Database) (r : ProcessingResult) :
  processProjectFiles w projectId db = (db', Normal r) ->
  flattenResults (collected w (filesOf projectId db)) = [] ->
  validDraws (fallbackDraws w) ->
  items r = generateFallbackEstimation (fallbackDraws w) /\
  0 < totalCost r /\
  total_cost <$> projects db' !! projectId =
    (fun _ => totalCost r) <$> projects db !! projectId.
Proof.
  intros Hrun Hflat V.
  apply processProjectFiles_normal in Hrun
    as (_ & _ & its & total & average & Hagg & -> & ->).
  pose proof (aggregate_total _ _ _ _ _ Hagg) as ->.
  apply aggregate_items in Hagg. rewrite loopResult_results, Hflat in Hagg.
  cbn [List.length Nat.eqb negb] in Hagg. rewrite andb_false_r in Hagg. subst its.
  cbn [items totalCost projects]. split; [reflexivity|]. split.
  - apply sumAmounts_positive.
    + intros E. apply (f_equal List.length) in E.
      unfold generateFallbackEstimation in E. cbv zeta in E.
      rewrite length_imap, (selected_length _ V) in E.
      destruct V as (_ & Hs & _). pose proof (slice_bound _ Hs).
      cbn [List.length] in E. lia.
    + apply Forall_lookup. intros i it Hit.
      apply fallback_lookup in Hit as (item & Hitem & ->).
      pose proof (sorted_in_catalog _ _ _ V Hitem) as Hin.
      destruct V as (_ & _ & Hq & Hr).
      apply amount_positive; [|done..].
      pose proof catalog_baseRate as F. rewrite Forall_forall in F. exact (F _ Hin).
  - rewrite !lookup_alter_eq. by destruct (projects db !! projectId).
Qed.

Lemma fallback_run_total_positive_witness :
  exists db' r,
    processProjectFiles simulationWorld "p1" exampleDb = (db', Normal r) /\
    0 < totalCost r.
Proof.
  destruct (processProjectFiles simulationWorld "p1" exampleDb)
    as [db' [r|e]] eqn:Hrun; [|vm_compute in Hrun; discriminate].
  exists db', r. split; [reflexivity|].
  destruct (fallback_run_total_positive _ _ _ _ _ Hrun) as (_ & H & _).
  - reflexivity.
  - exact exampleDraws_valid.
  - exact H.
Defined.

End FallbackRanges.

Module DocumentFacts.
Import MoreNotions MoreExamples.
Import Supabase AiProviders Env DocumentProcessor.

(** After [processFile] and [analyzeWithAI], a document carries
    either an error or an analysis result, never both and never neither; it
    carries the error exactly when reading the file or the provider call
    failed, and the provider is not called for a file that could not be
    read. *)
Lemma analyzed_document_outcome (w : World) (file : File) :
  let document := analyzeWithAI w (processFile w file) in
  fileName document = name file /\
  match extractContent w file with
  | Throw message =>
      analysisResult document = None /\
      error document = Some ("Failed to process " ++ name file ++ ": " ++ message)
  | Normal text =>
      match analyzeDocument w text (name file) with
      | Normal result => analysisResult document = Some result /\ error document = None
      | Throw message =>
          analysisResult document = None /\
          error document = Some ("AI analysis failed: " ++ message)
      end
  end.
Proof.
  cbv zeta. unfold processFile, analyzeWithAI.
  destruct (extractContent w file) as [text|message]; cbn; [|done].
  by destruct (analyzeDocument w text (name file)).
Qed.

End DocumentFacts.

(** ** Uploading files *)

Module UploadFacts.
Import MoreNotions MoreExamples.
Import Supabase FileUpload.

Lemma storagePath_prefix w projectId i file :
  String.prefix (projectId ++ "/") (storagePath w projectId i file) = true.
Proof.
  unfold storagePath. cbv zeta. generalize (timestamp w i ++ "-" ++ randomId w i ++ "."
    ++ or_string (toLowerCase w (lastSegment (name file) "")) "bin").
  intros tail. induction projectId as [|c p IH]; simpl.
  - by destruct tail.
  - destruct (ascii_dec c c); [exact IH|done].
Qed.

(** One file, when it is stored. *)
Lemma uploadOne_normal w projectId i file b b' u :
  uploadOne w projectId i file b = (b', Normal u) ->
  (size file <= maxSize)%Z /\
  uploaded_name u = name file /\
  exists row,
    pendingRowOf projectId row /\ file_name row = name file /\ id row = uploaded_id u /\
    database b' =
      mkDatabase (projects (database b)) (project_files (database b) ++ [row])
                 (estimation_items (database b)) /\
    bucket b' = (bucket b ++ [file_url row])%list.
Proof.
  unfold uploadOne. destruct (Z.ltb_spec maxSize (size file)); [discriminate|].
  cbv zeta. destruct (uploadOutcome w i); try discriminate.
  destruct (String.eqb (publicUrl w _) ""); [discriminate|].
  destruct (insertOutcome w i) as [| |rid]; try discriminate.
  intros [= <- <-]. split; [done|]. split; [reflexivity|].
  exists (fileRow projectId (storagePath w projectId i file) rid file).
  split; [|by repeat split].
  split; [reflexivity|]. split; [reflexivity|]. apply storagePath_prefix.
Qed.

(** One file, whatever happens: the tables only grow, by at most that file's
    record. *)
Lemma uploadOne_grows w projectId i file b b' outcome :
  uploadOne w projectId i file b = (b', outcome) ->
  exists rows,
    database b' =
      mkDatabase (projects (database b)) (project_files (database b) ++ rows)
                 (estimation_items (database b)) /\
    Forall (pendingRowOf projectId) rows.
Proof.
  assert (same : database b =
            mkDatabase (projects (database b)) (project_files (database b) ++ [])
                       (estimation_items (database b))).
  { rewrite app_nil_r. by destruct (database b). }
  unfold uploadOne. destruct (maxSize <? size file)%Z.
  { intros [= <- _]. by exists []. }
  cbv zeta. destruct (uploadOutcome w i).
  1,2: intros [= <- _]; by exists [].
  destruct (String.eqb (publicUrl w _) "").
  { intros [= <- _]. by exists []. }
  destruct (insertOutcome w i) as [| |rid].
  1,2: intros [= <- _]; by exists [].
  intros [= <- _]. eexists [_]. split; [reflexivity|].
  constructor; [|constructor].
  split; [reflexivity|]. split; [reflexivity|]. apply storagePath_prefix.
Qed.

Lemma database_eta db :
  mkDatabase (projects db) (project_files db ++ []) (estimation_items db) = db.
Proof. rewrite app_nil_r. by destruct db. Qed.

Lemma uploadLoop_normal w projectId files :
  forall i acc b b' out,
    uploadLoop w projectId i files acc b = (b', Normal out) ->
    exists news rows,
      out = (acc ++ news)%list /\
      uploaded_name <$> news = name <$> kept files /\
      uploaded_id <$> news = id <$> rows /\
      file_name <$> rows = name <$> kept files /\
      Forall (pendingRowOf projectId) rows /\
      Forall (fun file => (size file <= maxSize)%Z) (kept files) /\
      database b' =
        mkDatabase (projects (database b)) (project_files (database b) ++ rows)
                   (estimation_items (database b)) /\
      bucket b' = (bucket b ++ (file_url <$> rows))%list.
Proof.
  induction files as [|file files IH]; intros i acc b b' out H.
  - injection H as <- <-. exists [], [].
    rewrite !app_nil_r. repeat split; try done. by destruct (database b).
  - cbn [uploadLoop] in H. unfold kept. cbn [List.filter]. fold (kept files).
    destruct (size file =? 0)%Z; cbn [negb].
    { exact (IH _ _ _ _ _ H). }
    destruct (uploadOne w projectId i file b) as [b1 [u|message]] eqn:E; [|discriminate].
    apply uploadOne_normal in E as (Hsize & Hname & row & Hrow & Hfile & Hid & Hdb & Hbucket).
    apply IH in H as (news & rows & -> & Hn & Hi & Hf & Hp & Hs & Hdb' & Hb').
    exists (u :: news), (row :: rows).
    rewrite Hdb in Hdb'. cbn [projects project_files estimation_items] in Hdb'.
    rewrite <- !app_assoc in *. cbn [app] in *.
    rewrite !fmap_cons, Hn, Hi, Hf, Hname, Hfile, Hid. repeat split; try done.
    + by constructor.
    + by constructor.
    + rewrite Hb', Hbucket, <- app_assoc. reflexivity.
Qed.

Lemma uploadLoop_grows w projectId files :
  forall i acc b b' outcome,
    uploadLoop w projectId i files acc b = (b', outcome) ->
    exists rows,
      database b' =
        mkDatabase (projects (database b)) (project_files (database b) ++ rows)
                   (estimation_items (database b)) /\
      Forall (pendingRowOf projectId) rows.
Proof.
  induction files as [|file files IH]; intros i acc b b' outcome H.
  - injection H as <- _. exists []. rewrite app_nil_r. by destruct (database b).
  - cbn [uploadLoop] in H. destruct (size file =? 0)%Z; [exact (IH _ _ _ _ _ H)|].
    destruct (uploadOne w projectId i file b) as [b1 o] eqn:E.
    apply uploadOne_grows in E as (rows1 & Hdb1 & Hp1).
    destruct o as [u|message].
    + apply IH in H as (rows2 & Hdb2 & Hp2). exists (rows1 ++ rows2)%list.
      rewrite Hdb2, Hdb1. cbn [projects project_files estimation_items].
      rewrite <- app_assoc. split; [reflexivity|]. by apply Forall_app.
    + injection H as <- _. by exists rows1.
Qed.

(** X23.  When [uploadProjectFiles] returns, it returns one entry for each
    file of non-zero size, in order and at least one; each of these files is
    at most 50 MB; [project_files] has grown by one [pending] record per such
    file, carrying the project's id, the file's name, the id returned to the
    caller and a storage path under the project's folder; and nothing else
    in the tables has changed. *)
Theorem uploadProjectFiles_returns (w : UploadWorld) (projectId : string)
    (files : list LocalFile) (b b' : Backend) (uploaded : list UploadedFile) :
  uploadProjectFiles w projectId files b = (b', Normal uploaded) ->
  uploaded <> [] /\
  uploaded_name <$> uploaded = name <$> kept files /\
  Forall (fun file => (size file <= maxSize)%Z) (kept files) /\
  exists rows,
    database b' =
      mkDatabase (projects (database b)) (project_files (database b) ++ rows)
                 (estimation_items (database b)) /\
    bucket b' = (bucket b ++ (file_url <$> rows))%list /\
    id <$> rows = uploaded_id <$> uploaded /\
    file_name <$> rows = name <$> kept files /\
    Forall (pendingRowOf projectId) rows.
Proof.
  unfold uploadProjectFiles. destruct files as [|file files]; [discriminate|].
  destruct (String.eqb projectId ""); [discriminate|].
  destruct (uploadLoop w projectId 0 (file :: files) [] b) as [b1 [out|message]] eqn:E.
  - destruct out as [|u out]; [discriminate|]. intros [= <- <-].
    apply uploadLoop_normal in E as (news & rows & E & Hn & Hi & Hf & Hp & Hs & Hdb & Hb).
    cbn [app] in E. subst news. split; [discriminate|]. split; [exact Hn|].
    split; [exact Hs|]. exists rows. by repeat split.
  - discriminate.
Qed.

Lemma uploadProjectFiles_returns_witness :
  exists b' uploaded,
    uploadProjectFiles exampleUploadWorld "p1" [emptyFile; planFile] emptyBackend =
      (b', Normal uploaded) /\
    uploaded_name <$> uploaded = ["plan.pdf"] /\
    file_name <$> project_files (database b') = ["plan.pdf"].
Proof.
  destruct (uploadProjectFiles exampleUploadWorld "p1" [emptyFile; planFile] emptyBackend)
    as [b' [uploaded|message]] eqn:E; [|vm_compute in E; discriminate].
  exists b', uploaded. split; [reflexivity|].
  destruct (uploadProjectFiles_returns _ _ _ _ _ _ E)
    as (_ & Hn & _ & rows & Hdb & _ & _ & Hf & _).
  split; [exact Hn|]. rewrite Hdb. cbn [project_files database emptyBackend app].
  exact Hf.
Defined.

(** X24.  Files of size zero are skipped without any call to the storage:
    when every file of a non-empty list is empty, the upload throws ['No
    files were successfully uploaded'] and nothing is stored or recorded. *)
Theorem uploadProjectFiles_only_empty_files (w : UploadWorld) (projectId : string)
    (files : list LocalFile) (b : Backend) :
  files <> [] ->
  projectId <> "" ->
  Forall (fun file => size file = 0%Z) files ->
  uploadProjectFiles w projectId files b =
    (b, Throw "No files were successfully uploaded").
Proof.
  intros Hne Hp H. unfold uploadProjectFiles.
  destruct files as [|file files]; [done|].
  destruct (String.eqb_spec projectId ""); [done|].
  assert (L : forall i, uploadLoop w projectId i (file :: files) [] b = (b, Normal [])).
  { clear Hne. induction H as [|f l Hf _ IH]; intros i; [reflexivity|].
    cbn [uploadLoop]. rewrite Hf. cbn. apply IH. }
  by rewrite L.
Qed.

Lemma uploadProjectFiles_only_empty_files_witness :
  uploadProjectFiles exampleUploadWorld "p1" [emptyFile; emptyFile] emptyBackend =
    (emptyBackend, Throw "No files were successfully uploaded").
Proof.
  apply uploadProjectFiles_only_empty_files; [discriminate..|].
  repeat constructor.
Defined.

(** X25.  Nothing is rolled back: once the first file of an upload has been
    stored and recorded, its record is in [project_files] when the call
    ends, whether the call returns or a later file makes it throw. *)
Theorem uploadProjectFiles_keeps_stored_file (w : UploadWorld) (projectId : string)
    (file : LocalFile) (rest : list LocalFile) (b b1 : Backend) (u : UploadedFile) :
  projectId <> "" ->
  size file <> 0%Z ->
  uploadOne w projectId 0 file b = (b1, Normal u) ->
  exists row rows,
    id row = uploaded_id u /\ file_name row = name file /\
    project_files (database (uploadProjectFiles w projectId (file :: rest) b).1) =
      (project_files (database b) ++ row :: rows)%list.
Proof.
  intros Hp Hs H1. unfold uploadProjectFiles.
  destruct (String.eqb_spec projectId ""); [done|].
  cbn [uploadLoop]. destruct (Z.eqb_spec (size file) 0); [done|]. rewrite H1.
  apply uploadOne_normal in H1 as (_ & _ & row & _ & Hfile & Hid & Hdb & _).
  destruct (uploadLoop w projectId 1 rest ([] ++ [u]) b1) as [b2 outcome] eqn:E.
  apply uploadLoop_grows in E as (rows & Hdb2 & _).
  exists row, rows. split; [exact Hid|]. split; [exact Hfile|].
  assert (project_files (database b2) = (project_files (database b) ++ row :: rows)%list).
  { rewrite Hdb2, Hdb. cbn [project_files]. by rewrite <- app_assoc. }
  by destruct outcome as [[|? ?]|?].
Qed.

Lemma uploadProjectFiles_keeps_stored_file_witness :
  exists b' message,
    uploadProjectFiles exampleUploadWorld "p1" [planFile; hugeFile] emptyBackend =
      (b', Throw message) /\
    file_name <$> project_files (database b') = ["plan.pdf"].
Proof.
  destruct (uploadOne exampleUploadWorld "p1" 0 planFile emptyBackend) as [b1 [u|m]] eqn:E1;
    [|vm_compute in E1; discriminate].
  destruct (uploadProjectFiles_keeps_stored_file exampleUploadWorld "p1" planFile
              [hugeFile] emptyBackend b1 u) as (row & rows & _ & Hname & Hrows);
    [discriminate|discriminate|exact E1|].
  destruct (uploadProjectFiles exampleUploadWorld "p1" [planFile; hugeFile] emptyBackend)
    as [b' [uploaded|message]] eqn:E; [vm_compute in E; discriminate|].
  exists b', message. split; [reflexivity|].
  injection E as <- _. vm_compute. reflexivity.
Defined.

End UploadFacts.

(** ** From upload to display *)

Module LifecycleFacts.
Import MoreNotions MoreExamples.
Import JsNumber Supabase AiProviders Env DocumentProcessor AiProcessing UseProjects.
Import Notions Examples PipelineFacts FileUpload ProjectsHook ProjectsList UploadFacts.





(** X28.  Deleting a project removes its row, its file records and its
    estimation items and leaves every other project's rows, records and
    items as they were; processing the deleted project afterwards throws
    ['No files found for processing'] and changes nothing.  When the delete
    reports an error, nothing is removed. *)
Theorem deleteProject_cascades (projectId : string)
    (cached : list (string * ProjectRow)) (db : Database) :
  deleteProject true projectId cached db = (db, cached, false) /\
  let db' := (deleteProject false projectId cached db).1.1 in
  projects db' !! projectId = None /\
  filesOf projectId db' = [] /\
  getProjectEstimation projectId db' = [] /\
  (forall other, other <> projectId ->
     projects db' !! other = projects db !! other /\
     filesOf other db' = filesOf other db /\
     getProjectEstimation other db' = getProjectEstimation other db) /\
  (forall w, processProjectFiles w projectId db' =
               (db', Throw "No files found for processing")).
Proof.
  split; [reflexivity|]. cbv zeta. unfold deleteProject. cbn [fst].
  assert (gone : forall A (key : A -> string) (l : list A),
            List.filter (fun x => String.eqb (key x) projectId)
              (List.filter (fun x => negb (String.eqb (key x) projectId)) l) = []).
  { intros A key l. induction l as [|x l IH]; [reflexivity|]. cbn [List.filter].
    destruct (String.eqb (key x) projectId) eqn:K; cbn [negb List.filter]; [exact IH|].
    by rewrite K. }
  assert (kept : forall A (key : A -> string) (l : list A) other, other <> projectId ->
            List.filter (fun x => String.eqb (key x) other)
              (List.filter (fun x => negb (String.eqb (key x) projectId)) l) =
            List.filter (fun x => String.eqb (key x) other) l).
  { intros A key l other Hne. induction l as [|x l IH]; [reflexivity|]. cbn [List.filter].
    destruct (String.eqb_spec (key x) projectId) as [K|K]; cbn [negb List.filter].
    - destruct (String.eqb_spec (key x) other); [congruence|exact IH].
    - by rewrite IH. }
  assert (F : filesOf projectId (delete_project projectId db) = [])
    by apply (gone _ project_id).
  split; [apply lookup_delete_eq|]. split; [exact F|].
  split; [apply (gone _ item_project_id)|]. split.
  - intros other Hne. split; [by apply lookup_delete_ne|].
    split; [by apply (kept _ project_id)|by apply (kept _ item_project_id)].
  - intros w. rewrite processProjectFiles_run, F. cbv zeta.
    destruct (aggregate w _) as [[? ?] ?]. f_equal.
    unfold delete_project. cbn [projects project_files estimation_items].
    f_equal. rewrite !alter_id'; [reflexivity|apply lookup_delete_eq|].
    rewrite alter_id'; apply lookup_delete_eq.
Qed.







End LifecycleFacts.

Module ReaderFacts.
Import MoreNotions MoreExamples.
Import Supabase AiProviders Env DocumentProcessor FileUpload DocumentReaders.

(** X30.  A spreadsheet (a type containing [sheet] or a name ending in
    [.xlsx], that is neither a PDF, an image nor a Word document) is never
    read: [processFile] cannot fail on it, and it hands the provider a fixed
    placeholder text, so what the analysis returns does not depend on the
    file's content or on the readers. *)
Theorem spreadsheet_is_not_read (r r' : Readers) (w : World)
    (name type data data' : string) :
  String.eqb type "application/pdf" = false ->
  String.prefix "image/" type = false ->
  includes type "word" || endsWith name ".docx" = false ->
  includes type "sheet" || endsWith name ".xlsx" = true ->
  processFile (withReaders r w) (mkBrowserFile name type data) =
    mkProcessed name type
      "Excel spreadsheet detected. Content extraction requires specialized processing for full accuracy."
      None None /\
  analyzeWithAI (withReaders r w) (processFile (withReaders r w) (mkBrowserFile name type data))
    = analyzeWithAI (withReaders r' w)
        (processFile (withReaders r' w) (mkBrowserFile name type data')).
Proof.
  intros Hpdf Himg Hword Hsheet.
  assert (E : forall r0 d, processFile (withReaders r0 w) (mkBrowserFile name type d) =
            mkProcessed name type
              "Excel spreadsheet detected. Content extraction requires specialized processing for full accuracy."
              None None).
  { intros r0 d. unfold processFile, withReaders, extractByType.
    cbn [extractContent Env.type Env.name]. by rewrite Hpdf, Himg, Hword, Hsheet. }
  split; [apply E|]. by rewrite !E.
Qed.

Lemma spreadsheet_is_not_read_witness :
  DocumentProcessor.error
    (processFile (withReaders failingReaders Examples.exampleWorld)
                 (mkBrowserFile "boq.xlsx" "" "PK")) = None.
Proof.
  destruct (spreadsheet_is_not_read failingReaders failingReaders Examples.exampleWorld
              "boq.xlsx" "" "PK" "PK") as [E _]; [reflexivity..|].
  by rewrite E.
Defined.

End ReaderFacts.
